(** * Finance tracker: ledger and budget evaluation engine

    A shallow embedding of the rule logic of the Django project
    [finance_tracker]: the derived amounts of [transactions/models.py], the
    budget properties of [budgets/models.py], the helpers of
    [dashboard/views.py] and the currency and alert helpers of
    [transactions/views.py].

    Conventions of the embedding.
    - A [DecimalField(max_digits=12, decimal_places=2)] value is an integer
      number of minor units (cents) in [Z]; sums and differences of such
      values are exact (the 28-digit precision of the decimal context is not
      reached by sums of 12-digit rows).
    - A quotient of two decimals and a Python float are rationals in [Q],
      obtained through the rounding the runtime applies: 28 significant
      decimal digits for [Decimal], 53 significant bits for [float], both
      round-half-even.  Exponent limits are never reached by quotients of
      stored amounts and are left out.
    - A database table is the list of its rows; a queryset filter is
      [List.filter].
    - Code that can raise returns a [result]. *)

From Stdlib Require Import ZArith QArith Qreduction List String Bool Lia.
From Stdlib Require Import Permutation.
From Equations Require Import Equations.
Import ListNotations.
Local Open Scope Z_scope.

(** ** The Python runtime the code relies on *)

Module Py.

(** Exceptions that the modelled code can meet. *)
Inductive exn : Type :=
| DivisionByZero              (* decimal.DivisionByZero: x / 0, x <> 0 *)
| InvalidOperation            (* decimal.InvalidOperation: 0 / 0 *)
| RelatedObjectDoesNotExist   (* user.profile without a UserProfile row *)
| RequestException            (* requests.get failed or timed out *)
| JSONDecodeError             (* response.json() on a malformed body *)
| AttributeError              (* data.get on a value that is no dict *)
| KeyError                    (* data['conversion_result'] missing *)
| TypeError                   (* round() of a value that is no number *)
| SMTPException.              (* the mail transport failed *)

Inductive result (A : Type) : Type :=
| Ok (a : A)
| Raise (e : exn).
Arguments Ok {A} a.
Arguments Raise {A} e.

Definition bind {A B} (r : result A) (k : A -> result B) : result B :=
  match r with
  | Ok a => k a
  | Raise e => Raise e
  end.

(** A Python number as the code produces them: an [int], a finite
    [float] given by its exact rational value, or a two-place [Decimal]
    given in minor units. *)
Inductive num : Type :=
| PyInt (z : Z)
| PyFloat (q : Q)
| PyDecimal (cents : Z).

Definition value (n : num) : Q :=
  match n with
  | PyInt z => inject_Z z
  | PyFloat q => q
  | PyDecimal c => Qmake c 100
  end.

(** [a >= b] on numbers compares the exact values. *)
Definition ge (a b : num) : bool := Qle_bool (value b) (value a).

(** *** Rounding to [p] significant digits in base [beta] *)

(** [pow_le beta e n d] decides [beta^e <= n / d] for [d > 0]. *)
Definition pow_le (beta e n d : Z) : bool :=
  if 0 <=? e then beta ^ e * d <=? n else d <=? n * beta ^ (- e).

(** Largest [e] in [(hi - fuel, hi]] with [beta^e <= n / d], searching
    downwards from [hi]. *)
Fixpoint search_exp (fuel : nat) (beta hi n d : Z) : Z :=
  match fuel with
  | O => hi
  | S fuel' => if pow_le beta hi n d then hi
               else search_exp fuel' beta (hi - 1) n d
  end.

(** [floor (log_beta (n / d))] for [n, d > 0] and [beta >= 2]: the
    exponent lies between [-(log2 d + 1)] and [log2 n]. *)
Definition floor_log (beta n d : Z) : Z :=
  let hi := Z.log2 n in
  let lo := - (Z.log2 d + 1) in
  search_exp (Z.to_nat (hi - lo)) beta hi n d.

(** Nearest integer to [n / d], ties to even, for [n >= 0] and [d > 0]. *)
Definition round_half_even (n d : Z) : Z :=
  let q := n / d in
  let r := n mod d in
  match 2 * r ?= d with
  | Lt => q
  | Gt => q + 1
  | Eq => if Z.even q then q else q + 1
  end.

Definition round_sig (beta p : Z) (x : Q) : Q :=
  let x := Qred x in
  let n := Z.abs (Qnum x) in
  let d := Zpos (Qden x) in
  if n =? 0 then 0%Q
  else
    let e := floor_log beta n d in
    let k := p - 1 - e in
    let m := if 0 <=? k then round_half_even (n * beta ^ k) d
             else round_half_even n (d * beta ^ (- k)) in
    let s := Z.sgn (Qnum x) in
    Qred (if 0 <=? k then Qmake (s * m) (Z.to_pos (beta ^ k))
          else inject_Z (s * m * beta ^ (- k))).

(** Arithmetic of [decimal.Decimal] in the default context (precision 28,
    ROUND_HALF_EVEN, division traps enabled). *)
Definition decimal_round (x : Q) : Q := round_sig 10 28 x.

Definition decimal_div (a b : Q) : result Q :=
  if Qeq_bool b 0 then
    (if Qeq_bool a 0 then Raise InvalidOperation else Raise DivisionByZero)
  else Ok (decimal_round (a / b)).

Definition decimal_mul (a b : Q) : Q := decimal_round (a * b).

(** [float(x)]: the IEEE 754 binary64 number nearest to [x]. *)
Definition float (x : Q) : Q := round_sig 2 53 x.

(** [round(x, 2)] on a float: nearest multiple of 0.01 to the exact value,
    ties to even, then the nearest float. *)
Definition round2 (x : Q) : Q :=
  let y := Qred (x * 100) in
  let n := Z.abs (Qnum y) in
  let m := Z.sgn (Qnum y) * round_half_even n (Zpos (Qden y)) in
  float (Qmake m 100).

(** A decimal with two places, given in minor units, as a rational. *)
Definition of_cents (c : Z) : Q := Qmake c 100.

End Py.

Notation "x <- c ;; k" := (Py.bind c (fun x => k))
  (at level 61, c at next level, right associativity).


(** ** transactions/models.py *)

Module Transactions.

(** [TYPE_CHOICES]. *)
Inductive TxType : Type := income | expense.

Definition TxType_eqb (a b : TxType) : bool :=
  match a, b with
  | income, income | expense, expense => true
  | _, _ => false
  end.

(** [datetime.date]; dates compare in the order year, month, day. *)
Record Date : Type := mkDate { year : Z; month : Z; day : Z }.

Definition date_le (a b : Date) : bool :=
  (year a <? year b)
  || ((year a =? year b)
      && ((month a <? month b)
          || ((month a =? month b) && (day a <=? day b)))).

(** A row of the [Transaction] table.  [user] and [category] are the
    foreign keys; [category] is nullable ([on_delete=SET_NULL]). *)
Record Transaction : Type := mkTransaction {
  user : nat;
  category : option nat;
  type : TxType;
  amount : Z;
  is_refund : bool;
  currency : string;
  amount_in_preferred_currency : option Py.num;
  date : Date;
  description : string
}.

Definition effective_amount (t : Transaction) : Z :=
  if is_refund t then - amount t else amount t.

Definition signed_amount (t : Transaction) : Z :=
  match type t with
  | income => amount t
  | expense => if is_refund t then amount t else - amount t
  end.

(** [qs.aggregate(t=Sum('amount'))['t']]: [None] on an empty queryset. *)
Definition aggregate_Sum_amount (qs : list Transaction) : option Z :=
  match qs with
  | [] => None
  | _ => Some (fold_left (fun acc t => acc + amount t) qs 0)
  end.

(** [x or Decimal('0.00')]: [None] and a zero decimal are both falsy. *)
Definition or_zero (x : option Z) : Z :=
  match x with
  | None => 0
  | Some v => if v =? 0 then 0 else v
  end.

End Transactions.

(** ** budgets/models.py *)

Module Budgets.
Import Transactions.

(** A row of the [Budget] table. *)
Record Budget : Type := mkBudget {
  user : nat;
  category : nat;
  amount : Z;
  currency : string;
  start_date : Date;
  end_date : Date;
  name : string
}.

(** The queryset of [spent_amount]:
    [filter(user=, category=, type='expense', date__range=[start, end])]. *)
Definition in_budget (b : Budget) (t : Transaction) : bool :=
  Nat.eqb (Transactions.user t) (user b)
  && match Transactions.category t with
     | Some c => Nat.eqb c (category b)
     | None => false
     end
  && TxType_eqb (type t) expense
  && date_le (start_date b) (date t) && date_le (date t) (end_date b).

Definition spent_amount (db : list Transaction) (b : Budget) : Z :=
  let transactions := filter (in_budget b) db in
  let total :=
    fold_left
      (fun total t =>
         if is_refund t then total - Transactions.amount t
         else total + Transactions.amount t)
      transactions 0 in
  Z.max total 0.

Definition remaining_amount (db : list Transaction) (b : Budget) : Z :=
  amount b - spent_amount db b.

Definition usage_percentage (db : list Transaction) (b : Budget)
  : Py.result Py.num :=
  if amount b =? 0 then Py.Ok (Py.PyInt 0)
  else
    q <- Py.decimal_div (Py.of_cents (spent_amount db b))
                        (Py.of_cents (amount b)) ;;
    Py.Ok (Py.PyFloat (Py.float (Py.decimal_mul q 100))).

Definition is_exceeded (db : list Transaction) (b : Budget) : bool :=
  amount b <? spent_amount db b.

Definition status (db : list Transaction) (b : Budget) : Py.result string :=
  pct <- usage_percentage db b ;;
  if Py.ge pct (Py.PyInt 100) then Py.Ok "exceeded"%string
  else if Py.ge pct (Py.PyInt 80) then Py.Ok "warning"%string
  else Py.Ok "good"%string.

End Budgets.

(** ** accounts/models.py *)

Module Accounts.

(** A row of the [UserProfile] table, one-to-one with a user. *)
Record UserProfile : Type := mkUserProfile {
  user : nat;
  preferred_currency : string;
  budget_alert_email : bool;
  budget_alert_threshold : Z
}.

(** [user.profile]: the reverse one-to-one accessor raises when the user
    has no row in the table. *)
Definition profile (profiles : list UserProfile) (u : nat)
  : Py.result UserProfile :=
  match find (fun p => Nat.eqb (user p) u) profiles with
  | Some p => Py.Ok p
  | None => Py.Raise Py.RelatedObjectDoesNotExist
  end.

End Accounts.

(** ** dashboard/views.py *)

Module Dashboard.
Import Transactions.

(** Iterations left in the [while month <= 0] loop, as a bound. *)
Definition to_go (month : Z) : nat := Z.to_nat (1 - month).
Arguments to_go : simpl never.

(** The [while month <= 0] loop of [_months_ago]. *)
Equations? rollover (month year : Z) : Z * Z by wf (to_go month) lt :=
  rollover month year with Z_le_gt_dec month 0 => {
    | left _ := rollover (month + 12) (year - 1);
    | right _ := (month, year) }.
Proof. unfold to_go. lia. Qed.

Definition _months_ago (today : Date) (n : Z) : Z * Z :=
  rollover (Transactions.month today - n) (Transactions.year today).

(** The three [aggregate(Sum('amount'))] queries of [dashboard] and the
    net worth computed from them. *)
Definition total_income (db : list Transaction) (u : nat) : Z :=
  or_zero (aggregate_Sum_amount
    (filter (fun t => Nat.eqb (user t) u && TxType_eqb (type t) income) db)).

Definition total_expense (db : list Transaction) (u : nat) : Z :=
  or_zero (aggregate_Sum_amount
    (filter (fun t => Nat.eqb (user t) u && TxType_eqb (type t) expense
                      && Bool.eqb (is_refund t) false) db)).

Definition total_refunds (db : list Transaction) (u : nat) : Z :=
  or_zero (aggregate_Sum_amount
    (filter (fun t => Nat.eqb (user t) u && TxType_eqb (type t) expense
                      && Bool.eqb (is_refund t) true) db)).

Definition net_worth (db : list Transaction) (u : nat) : Z :=
  total_income db u - total_expense db u + total_refunds db u.

Definition _get_currency (profiles : list Accounts.UserProfile) (u : nat)
  : string :=
  match Accounts.profile profiles u with
  | Py.Ok p => Accounts.preferred_currency p
  | Py.Raise _ => "USD"%string
  end.

End Dashboard.


(** ** The collaborators of the views: rate source, messages, mail *)

Module Env.
Import Transactions.

(** Parsed JSON, as [response.json()] returns it. *)
#[local] Unset Elimination Schemes.
Inductive json : Type :=
| JNull
| JBool (b : bool)
| JInt (z : Z)
| JFloat (q : Q)
| JStr (s : string)
| JList (l : list json)
| JDict (kv : list (string * json)).
#[local] Set Elimination Schemes.

Fixpoint lookup (key : string) (kv : list (string * json)) : option json :=
  match kv with
  | [] => None
  | (k, v) :: rest => if String.eqb k key then Some v else lookup key rest
  end.

(** [data.get(key)]: [None] for a missing key; only a dict has [get]. *)
Definition dict_get (data : json) (key : string) : Py.result json :=
  match data with
  | JDict kv => match lookup key kv with
                | Some v => Py.Ok v
                | None => Py.Ok JNull
                end
  | _ => Py.Raise Py.AttributeError
  end.

(** [data[key]], reached only after [data.get] succeeded. *)
Definition subscript (data : json) (key : string) : Py.result json :=
  match data with
  | JDict kv => match lookup key kv with
                | Some v => Py.Ok v
                | None => Py.Raise Py.KeyError
                end
  | _ => Py.Raise Py.TypeError
  end.

(** [round(v, 2)] on a parsed JSON value. *)
Definition round_json (v : json) : Py.result Py.num :=
  match v with
  | JInt z => Py.Ok (Py.PyInt z)
  | JBool b => Py.Ok (Py.PyInt (if b then 1 else 0))
  | JFloat q => Py.Ok (Py.PyFloat (Py.round2 q))
  | _ => Py.Raise Py.TypeError
  end.

Definition is_success (v : json) : bool :=
  match v with
  | JStr s => String.eqb s "success"
  | _ => false
  end.

(** What [requests.get] hands back: the status line and the body as
    [response.json()] decodes it. *)
Record Response : Type := mkResponse {
  status_code : Z;
  body : Py.result json
}.

(** The request of [convert_currency], by the parts of its URL. *)
Record RateRequest : Type := mkRateRequest {
  api_key : string;
  from_currency : string;
  to_currency : string;
  req_amount : Py.num
}.

(** Flash messages of [django.contrib.messages], by their arguments. *)
Inductive Message : Type :=
| BudgetAlert (usage_percent : Py.num) (category : nat)
| TransactionAdded.

(** The two bodies of [send_budget_alert]. *)
Inductive EmailBody : Type :=
| Exceeded (budget spent over_by : Z)
| Approaching (usage_percent : Py.num) (budget spent remaining : Z).

Record Email : Type := mkEmail {
  recipient : nat;
  subject_category : nat;
  email_body : EmailBody
}.

(** Everything a request can read or change. *)
Record World : Type := mkWorld {
  transactions : list Transaction;
  budgets : list Budgets.Budget;
  profiles : list Accounts.UserProfile;
  messages : list Message;
  rate_requests : list RateRequest;
  mail_attempts : list Email
}.

(** A computation that reads and updates the world and may raise; the
    world reached when it raises is kept. *)
Definition M (A : Type) : Type := World -> Py.result A * World.

Definition ret {A} (a : A) : M A := fun w => (Py.Ok a, w).

Definition bind {A B} (m : M A) (k : A -> M B) : M B :=
  fun w => match m w with
           | (Py.Ok a, w') => k a w'
           | (Py.Raise e, w') => (Py.Raise e, w')
           end.

Definition lift {A} (r : Py.result A) : M A := fun w => (r, w).

Definition try_except {A} (body : M A) (handler : M A) : M A :=
  fun w => match body w with
           | (Py.Ok a, w') => (Py.Ok a, w')
           | (Py.Raise _, w') => handler w'
           end.

Definition get : M World := fun w => (Py.Ok w, w).

(** [for x in xs: body(x)]. *)
Fixpoint for_each {A} (xs : list A) (body : A -> M unit) : M unit :=
  match xs with
  | [] => ret tt
  | x :: rest => bind (body x) (fun _ => for_each rest body)
  end.

End Env.

Declare Scope world_scope.
Delimit Scope world_scope with world.
Notation "x <~ c ;; k" := (Env.bind c (fun x => k))
  (at level 61, c at next level, right associativity) : world_scope.
Notation "c ;;; k" := (Env.bind c (fun _ => k))
  (at level 61, right associativity) : world_scope.

(** ** budgets/utils.py and transactions/views.py *)

Module Views.
Import Transactions Env.
Local Open Scope world_scope.

Section Collaborators.

(** The exchange-rate service behind [requests.get], the mail transport
    behind [send_mail], [settings.EXCHANGE_RATE_API_KEY] and the clock
    behind [date.today()]. *)
Variable rate_source : RateRequest -> Py.result Response.
Variable mail_transport : Email -> Py.result unit.
Variable EXCHANGE_RATE_API_KEY : string.
Variable today : Date.

(** [requests.get(url, timeout=5)]: the request is made, then the
    outcome is known. *)
Definition requests_get (req : RateRequest) : M Response :=
  fun w =>
    (rate_source req,
     mkWorld (transactions w) (budgets w) (profiles w) (messages w)
             (rate_requests w ++ [req]) (mail_attempts w)).

Definition convert_currency (amount : Py.num) (from_currency to_currency : string)
  : M Py.num :=
  if String.eqb from_currency to_currency then ret amount
  else
    try_except
      (let url := mkRateRequest EXCHANGE_RATE_API_KEY
                                from_currency to_currency amount in
       response <~ requests_get url ;;
       data <~ lift (body response) ;;
       result <~ lift (dict_get data "result") ;;
       if is_success result then
         v <~ lift (subscript data "conversion_result") ;;
         lift (round_json v)
       else ret amount)
      (ret amount).

(** [send_mail(..., fail_silently=True)]: one attempt; a failure of the
    transport is swallowed, anything else is left to the caller. *)
Definition send_mail (e : Email) : M unit :=
  fun w =>
    (match mail_transport e with
     | Py.Raise Py.SMTPException => Py.Ok tt
     | r => r
     end,
     mkWorld (transactions w) (budgets w) (profiles w) (messages w)
             (rate_requests w) (mail_attempts w ++ [e])).

Definition send_budget_alert (u : nat) (budget : Budgets.Budget)
           (usage_percent : Py.num) : M unit :=
  w <~ get ;;
  let spent := Budgets.spent_amount (transactions w) budget in
  let remaining := Budgets.remaining_amount (transactions w) budget in
  let message :=
    if Py.ge usage_percent (Py.PyInt 100)
    then Exceeded (Budgets.amount budget) spent (Z.abs remaining)
    else Approaching usage_percent (Budgets.amount budget) spent remaining in
  try_except
    (send_mail (mkEmail u (Budgets.category budget) message))
    (ret tt).

Definition messages_add (m : Message) : M unit :=
  fun w =>
    (Py.Ok tt,
     mkWorld (transactions w) (budgets w) (profiles w) (messages w ++ [m])
             (rate_requests w) (mail_attempts w)).

(** [request.user.profile]. *)
Definition user_profile (u : nat) : M Accounts.UserProfile :=
  w <~ get ;; lift (Accounts.profile (profiles w) u).

Definition _check_budget_alert (u : nat) (transaction : Transaction) : M unit :=
  match type transaction, category transaction with
  | expense, Some cat =>
      w <~ get ;;
      let active :=
        filter (fun b => Nat.eqb (Budgets.user b) u
                         && Nat.eqb (Budgets.category b) cat
                         && date_le (Budgets.start_date b) today
                         && date_le today (Budgets.end_date b))
               (budgets w) in
      for_each active (fun budget =>
        w <~ get ;;
        usage_percent <~ lift (Budgets.usage_percentage (transactions w) budget) ;;
        p <~ user_profile u ;;
        let threshold := Accounts.budget_alert_threshold p in
        if Py.ge usage_percent (Py.PyInt threshold) then
          messages_add (BudgetAlert usage_percent (Budgets.category budget)) ;;;
          p <~ user_profile u ;;
          if Accounts.budget_alert_email p
          then send_budget_alert u budget usage_percent
          else ret tt
        else ret tt)
  | _, _ => ret tt
  end.

(** [transaction.save()]. *)
Definition save (t : Transaction) : M unit :=
  fun w =>
    (Py.Ok tt,
     mkWorld (transactions w ++ [t]) (budgets w) (profiles w) (messages w)
             (rate_requests w) (mail_attempts w)).

(** The POST branch of [transaction_create] on a form that validated to
    [form]. *)
Definition transaction_create (u : nat) (form : Transaction) : M unit :=
  let transaction :=
    mkTransaction u (category form) (type form) (amount form)
                  (is_refund form) (currency form)
                  (amount_in_preferred_currency form) (date form)
                  (description form) in
  p <~ user_profile u ;;
  let preferred_currency := Accounts.preferred_currency p in
  converted <~ convert_currency (Py.PyDecimal (amount transaction))
                                (currency transaction) preferred_currency ;;
  let transaction :=
    mkTransaction u (category form) (type form) (amount form)
                  (is_refund form) (currency form)
                  (Some converted) (date form) (description form) in
  save transaction ;;;
  _check_budget_alert u transaction ;;;
  messages_add TransactionAdded.

End Collaborators.

End Views.

(** ** The ledger as the specification words it *)

Module Ledger.
Import Transactions.

Definition sum (l : list Z) : Z := fold_right Z.add 0 l.

(** Calendar order on dates. *)
Definition Date_le (a b : Date) : Prop :=
  year a < year b
  \/ (year a = year b
      /\ (month a < month b \/ (month a = month b /\ day a <= day b))).

(** The owner's expense transactions of the budget's category whose date
    lies in the budget's period. *)
Definition counts_towards (b : Budgets.Budget) (t : Transaction) : Prop :=
  user t = Budgets.user b
  /\ category t = Some (Budgets.category b)
  /\ type t = expense
  /\ Date_le (Budgets.start_date b) (date t)
  /\ Date_le (date t) (Budgets.end_date b).


End Ledger.

(** ** dashboard/views.py: the figures of the dashboard page *)

Module DashboardPage.
Import Transactions.

(** [date__month=m, date__year=y]. *)
Definition in_month (m y : Z) (t : Transaction) : bool :=
  (month (date t) =? m) && (year (date t) =? y).

Definition monthly_qs (db : list Transaction) (u : nat) (today : Date)
  : list Transaction :=
  filter (fun t => Nat.eqb (user t) u
                   && in_month (month today) (year today) t) db.

Definition monthly_income (db : list Transaction) (u : nat) (today : Date) : Z :=
  or_zero (aggregate_Sum_amount
    (filter (fun t => TxType_eqb (type t) income) (monthly_qs db u today))).

Definition monthly_expenses (db : list Transaction) (u : nat) (today : Date) : Z :=
  let monthly_expenses :=
    fold_left (fun acc t => acc + effective_amount t)
              (filter (fun t => TxType_eqb (type t) expense)
                      (monthly_qs db u today)) 0 in
  Z.max monthly_expenses 0.

Definition monthly_savings (db : list Transaction) (u : nat) (today : Date) : Z :=
  monthly_income db u today - monthly_expenses db u today.

(** [date(y, m, 1)]: [None] stands for the [ValueError] of a month outside
    1..12 or a year outside 1..9999. *)
Definition date_first (y m : Z) : option Date :=
  if (1 <=? m) && (m <=? 12) && (1 <=? y) && (y <=? 9999)
  then Some (mkDate y m 1) else None.

(** One bar of the six-month chart; the label is the date that
    [strftime('%b %Y')] prints. *)
Record ChartEntry : Type := mkChartEntry {
  label : Date;
  chart_income : Q;
  chart_expense : Q
}.

(** The three sums of one bar, each [aggregate(...)['t'] or 0]. *)
Definition bar_income (db : list Transaction) (u : nat) (m y : Z) : Z :=
  or_zero (aggregate_Sum_amount
    (filter (fun t => Nat.eqb (user t) u && TxType_eqb (type t) income
                      && in_month m y t) db)).

Definition bar_expense (db : list Transaction) (u : nat) (m y : Z) : Z :=
  or_zero (aggregate_Sum_amount
    (filter (fun t => Nat.eqb (user t) u && TxType_eqb (type t) expense
                      && Bool.eqb (is_refund t) false && in_month m y t) db)).

Definition bar_refund (db : list Transaction) (u : nat) (m y : Z) : Z :=
  or_zero (aggregate_Sum_amount
    (filter (fun t => Nat.eqb (user t) u && TxType_eqb (type t) expense
                      && Bool.eqb (is_refund t) true && in_month m y t) db)).

(** [float(max(float(exp) - float(ref), 0))]: the difference of two floats
    is rounded once; [float] of a float gives it back. *)
Definition net_bar (exp ref : Z) : Q :=
  let diff := Py.float (Py.float (Py.of_cents exp)
                        - Py.float (Py.of_cents ref)) in
  if Qle_bool 0 diff then diff else 0%Q.

Definition chart_entry (db : list Transaction) (u : nat) (today : Date) (i : Z)
  : option ChartEntry :=
  let '(m, y) := Dashboard._months_ago today i in
  match date_first y m with
  | None => None
  | Some d =>
      Some (mkChartEntry d
              (Py.float (Py.of_cents (bar_income db u m y)))
              (net_bar (bar_expense db u m y) (bar_refund db u m y)))
  end.

(** [for i in range(5, -1, -1): monthly_data.append(...)]; an exception in
    one bar ends the loop. *)
Fixpoint collect (bars : list (option ChartEntry)) : option (list ChartEntry) :=
  match bars with
  | [] => Some []
  | None :: _ => None
  | Some e :: rest => match collect rest with
                      | Some es => Some (e :: es)
                      | None => None
                      end
  end.

Definition monthly_data (db : list Transaction) (u : nat) (today : Date)
  : option (list ChartEntry) :=
  collect (map (chart_entry db u today) [5; 4; 3; 2; 1; 0]).

End DashboardPage.

(** ** reports/views.py: the monthly report *)

Module Reports.
Import Transactions.

(** A query parameter: absent, or a text with what [int()] makes of it
    ([None] when [int()] raises [ValueError]). *)
Inductive Param : Type :=
| Absent
| Text (parsed : option Z).

(** [int(request.GET.get(name, default))]. *)
Definition int_param (p : Param) (default : Z) : option Z :=
  match p with
  | Absent => Some default
  | Text parsed => parsed
  end.

(** The month and year the report shows: both parameters are read inside
    one [try], then clamped. *)
Definition selected_period (pmonth pyear : Param) (today : Date) : Z * Z :=
  let '(month, year) :=
    match int_param pmonth (Transactions.month today) with
    | Some m =>
        match int_param pyear (Transactions.year today) with
        | Some y => (m, y)
        | None => (Transactions.month today, Transactions.year today)
        end
    | None => (Transactions.month today, Transactions.year today)
    end in
  (Z.max 1 (Z.min 12 month),
   Z.max 2000 (Z.min (Transactions.year today + 1) year)).

(** The rows of the report (their [order_by('date')] does not enter the
    sums below). *)
Definition transactions (db : list Transaction) (u : nat) (month year : Z)
  : list Transaction :=
  filter (fun t => Nat.eqb (user t) u && DashboardPage.in_month month year t) db.

Definition total_income (db : list Transaction) (u : nat) (month year : Z) : Z :=
  or_zero (aggregate_Sum_amount
    (filter (fun t => TxType_eqb (type t) income) (transactions db u month year))).

Definition total_expenses (db : list Transaction) (u : nat) (month year : Z) : Z :=
  fold_left (fun acc t => acc + effective_amount t)
            (filter (fun t => TxType_eqb (type t) expense)
                    (transactions db u month year)) 0.

Definition net_savings (db : list Transaction) (u : nat) (month year : Z) : Z :=
  total_income db u month year - total_expenses db u month year.

(** [savings_rate] is the int 0 or a [Decimal]. *)
Inductive Rate : Type :=
| RateInt (z : Z)
| RateDecimal (q : Q).

Definition savings_rate (db : list Transaction) (u : nat) (month year : Z)
  : Py.result Rate :=
  if 0 <? total_income db u month year then
    q <- Py.decimal_div (Py.of_cents (net_savings db u month year))
                        (Py.of_cents (total_income db u month year)) ;;
    Py.Ok (RateDecimal (Py.decimal_mul q 100))
  else Py.Ok (RateInt 0).

End Reports.

(** ** transactions/views.py: the transaction list and the views by key *)

Module Listing.
Import Transactions.

(** [cleaned_data] of a valid [TransactionFilterForm]: an empty choice or
    field is [None]. *)
Record FilterData : Type := mkFilterData {
  f_type : option TxType;
  f_category : option nat;
  f_month : option Z;
  f_year : option Z;
  f_min_amount : option Z;
  f_max_amount : option Z
}.

(** [if data.get(k)] on a number: [None] and zero are both falsy. *)
Definition truthy (x : option Z) : option Z :=
  match x with
  | Some v => if v =? 0 then None else Some v
  | None => None
  end.

(** [qs = qs.filter(...)] when the criterion is given. *)
Definition narrow {A} (criterion : option A) (keep : A -> Transaction -> bool)
           (qs : list Transaction) : list Transaction :=
  match criterion with
  | Some c => filter (keep c) qs
  | None => qs
  end.

(** The queryset of [transaction_list]; [form] is [None] when the filter
    form is not valid. *)
Definition transaction_list (db : list Transaction) (u : nat)
           (form : option FilterData) : list Transaction :=
  let transactions := filter (fun t => Nat.eqb (user t) u) db in
  match form with
  | None => transactions
  | Some data =>
      let transactions :=
        narrow (f_type data) (fun ty t => TxType_eqb (type t) ty) transactions in
      let transactions :=
        narrow (f_category data)
               (fun c t => match category t with
                           | Some c' => Nat.eqb c' c
                           | None => false
                           end) transactions in
      let transactions :=
        narrow (f_month data) (fun m t => month (date t) =? m) transactions in
      let transactions :=
        narrow (truthy (f_year data)) (fun y t => year (date t) =? y)
               transactions in
      let transactions :=
        narrow (truthy (f_min_amount data)) (fun lo t => lo <=? amount t)
               transactions in
      narrow (truthy (f_max_amount data)) (fun hi t => amount t <=? hi)
             transactions
  end.

(** The [Transaction] table with its primary keys. *)
Definition Table : Type := list (nat * Transaction).

(** [get_object_or_404(Transaction, pk=pk, user=request.user)]; [None]
    stands for [Http404]. *)
Definition get_object_or_404 (table : Table) (pk u : nat) : option Transaction :=
  match find (fun r => Nat.eqb (fst r) pk && Nat.eqb (user (snd r)) u) table with
  | Some r => Some (snd r)
  | None => None
  end.

Definition transaction_detail (table : Table) (u pk : nat) : option Transaction :=
  get_object_or_404 table pk u.

(** The POST branch of [transaction_delete]: the table after
    [transaction.delete()]. *)
Definition transaction_delete (table : Table) (u pk : nat) : option Table :=
  match get_object_or_404 table pk u with
  | Some _ => Some (filter (fun r => negb (Nat.eqb (fst r) pk)) table)
  | None => None
  end.

End Listing.

(** ** accounts/views.py and accounts/signals.py *)

Module AccountsViews.
Import Accounts.

(** A new [UserProfile] row takes the defaults of the model. *)
Definition default_profile (u : nat) : UserProfile :=
  mkUserProfile u "USD" true 80.

(** [UserProfile.objects.get_or_create(user=user)]: the table afterwards
    and the profile returned. *)
Definition _ensure_profile (profiles : list UserProfile) (u : nat)
  : list UserProfile * UserProfile :=
  match find (fun p => Nat.eqb (user p) u) profiles with
  | Some p => (profiles, p)
  | None => (profiles ++ [default_profile u], default_profile u)
  end.

(** The two [post_save] receivers of [User]. *)
Definition create_user_profile (profiles : list UserProfile) (u : nat)
           (created : bool) : list UserProfile :=
  if created then fst (_ensure_profile profiles u) else profiles.

Definition save_user_profile (profiles : list UserProfile) (u : nat)
  : list UserProfile :=
  match profile profiles u with
  | Py.Ok _ => profiles
  | Py.Raise _ => profiles ++ [default_profile u]
  end.

Definition post_save_user (profiles : list UserProfile) (u : nat)
           (created : bool) : list UserProfile :=
  save_user_profile (create_user_profile profiles u created) u.

End AccountsViews.

(** ** transactions/models.py: deleting a category *)

Module Categories.
Import Transactions.

(** [on_delete=SET_NULL] of [Transaction.category]. *)
Definition set_null (c : nat) (t : Transaction) : Transaction :=
  match category t with
  | Some c' =>
      if Nat.eqb c' c
      then mkTransaction (user t) None (type t) (amount t) (is_refund t)
                         (currency t) (amount_in_preferred_currency t)
                         (date t) (description t)
      else t
  | None => t
  end.

Definition references (c : nat) (t : Transaction) : bool :=
  match category t with
  | Some c' => Nat.eqb c' c
  | None => false
  end.

(** [category.transactions.count()]. *)
Definition transaction_count (c : nat) (db : list Transaction) : nat :=
  List.length (filter (references c) db).

(** [category.delete()]: the transactions that reference the category lose
    the reference, the budgets on it go with it
    ([on_delete=CASCADE] of [Budget.category]). *)
Definition delete (c : nat) (w : Env.World) : Env.World :=
  Env.mkWorld (map (set_null c) (Env.transactions w))
              (filter (fun b => negb (Nat.eqb (Budgets.category b) c))
                      (Env.budgets w))
              (Env.profiles w) (Env.messages w)
              (Env.rate_requests w) (Env.mail_attempts w).

End Categories.

(** ** reports/views.py: the yearly report *)

Module YearlyReport.
Import Transactions.

(** [int(request.GET.get('year', today.year))], the current year when
    [int()] raises; the year is not clamped. *)
Definition selected_year (pyear : Reports.Param) (today : Date) : Z :=
  match Reports.int_param pyear (year today) with
  | Some y => y
  | None => year today
  end.

(** One row of [monthly_data]; the label is the date that
    [strftime('%b')] prints. *)
Record MonthRow : Type := mkMonthRow {
  row_label : Date;
  row_income : Q;
  row_expense : Q;
  row_savings : Q
}.

Definition month_row (db : list Transaction) (u : nat) (year month : Z)
  : option MonthRow :=
  let month_txns :=
    filter (fun t => Nat.eqb (user t) u
                     && DashboardPage.in_month month year t) db in
  let income :=
    or_zero (aggregate_Sum_amount
      (filter (fun t => TxType_eqb (type t) income) month_txns)) in
  let expenses :=
    fold_left (fun acc t => acc + effective_amount t)
              (filter (fun t => TxType_eqb (type t) expense) month_txns) 0 in
  match DashboardPage.date_first year month with
  | None => None
  | Some d =>
      Some (mkMonthRow d
              (Py.float (Py.of_cents income))
              (Py.float (Py.of_cents (Z.max expenses 0)))
              (Py.float (Py.of_cents (income - Z.max expenses 0))))
  end.

(** [for month in range(1, 13): monthly_data.append(...)]; an exception in
    one row ends the loop. *)
Fixpoint rows (db : list Transaction) (u : nat) (year : Z) (months : list Z)
  : option (list MonthRow) :=
  match months with
  | [] => Some []
  | month :: rest =>
      match month_row db u year month with
      | None => None
      | Some r => match rows db u year rest with
                  | Some rs => Some (r :: rs)
                  | None => None
                  end
      end
  end.

Definition monthly_data (db : list Transaction) (u : nat) (year : Z)
  : option (list MonthRow) :=
  rows db u year [1; 2; 3; 4; 5; 6; 7; 8; 9; 10; 11; 12].

End YearlyReport.

(** * Properties *)

Import Transactions.

(** ** Sums and loops *)

Lemma fold_left_shift {A} (f : A -> Z) (l : list A) (acc : Z) :
  fold_left (fun a x => a + f x) l acc = acc + Ledger.sum (map f l).
Proof.
  revert acc. induction l as [|x l IH]; intro acc; simpl.
  - lia.
  - rewrite IH. unfold Ledger.sum. simpl. lia.
Qed.

Lemma spent_loop_is_sum (l : list Transaction) (acc : Z) :
  fold_left (fun total t => if is_refund t then total - amount t
                            else total + amount t) l acc
  = acc + Ledger.sum (map effective_amount l).
Proof.
  revert acc. induction l as [|t l IH]; intro acc; simpl.
  - lia.
  - rewrite IH. unfold effective_amount, Ledger.sum. simpl.
    destruct (is_refund t); lia.
Qed.

Lemma aggregate_or_zero (qs : list Transaction) :
  or_zero (aggregate_Sum_amount qs) = Ledger.sum (map amount qs).
Proof.
  destruct qs as [|t qs]; [reflexivity|].
  unfold aggregate_Sum_amount, or_zero.
  rewrite fold_left_shift. rewrite Z.add_0_l.
  destruct (Ledger.sum (map amount (t :: qs)) =? 0) eqn:E; [|reflexivity].
  apply Z.eqb_eq in E. now rewrite E.
Qed.

Lemma date_le_spec (a b : Date) : date_le a b = true <-> Ledger.Date_le a b.
Proof.
  unfold date_le, Ledger.Date_le.
  rewrite orb_true_iff, andb_true_iff, orb_true_iff, andb_true_iff.
  rewrite !Z.ltb_lt, !Z.eqb_eq, Z.leb_le. tauto.
Qed.

Lemma in_budget_spec (b : Budgets.Budget) (t : Transaction) :
  Budgets.in_budget b t = true <-> Ledger.counts_towards b t.
Proof.
  unfold Budgets.in_budget, Ledger.counts_towards.
  rewrite !andb_true_iff, !date_le_spec, Nat.eqb_eq.
  destruct (category t) as [c|]; destruct (type t); simpl;
    rewrite ?Nat.eqb_eq; intuition congruence.
Qed.

Lemma spent_amount_unfold (db : list Transaction) (b : Budgets.Budget) :
  Budgets.spent_amount db b
  = Z.max 0 (Ledger.sum (map effective_amount
                             (filter (Budgets.in_budget b) db))).
Proof.
  unfold Budgets.spent_amount.
  rewrite spent_loop_is_sum, Z.add_0_l. apply Z.max_comm.
Qed.

(** C1. A budget's [spent_amount] is the sum of [effective_amount] over the
    owner's expense transactions of the budget's category dated within
    [start_date, end_date], floored at zero: it is never negative, and it
    is zero when the refunds of the period reach or exceed the spend. *)
Theorem spent_amount_is_floored_net_expense
        (db : list Transaction) (b : Budgets.Budget) :
  let counted := filter (Budgets.in_budget b) db in
  (forall t, In t counted <-> In t db /\ Ledger.counts_towards b t)
  /\ Budgets.spent_amount db b
     = Z.max 0 (Ledger.sum (map effective_amount counted))
  /\ 0 <= Budgets.spent_amount db b
  /\ (Ledger.sum (map effective_amount counted) <= 0 ->
      Budgets.spent_amount db b = 0).
Proof.
  intro counted.
  assert (E : Budgets.spent_amount db b
              = Z.max 0 (Ledger.sum (map effective_amount counted)))
    by apply spent_amount_unfold.
  split; [|split; [exact E|split]].
  - intro t. unfold counted. rewrite filter_In, in_budget_spec. tauto.
  - rewrite E. lia.
  - intro H. rewrite E. lia.
Qed.

(** The January budget of the test suite: category 1 of user 1, cap 500.00. *)
Definition food_budget : Budgets.Budget :=
  Budgets.mkBudget 1 1 50000 "USD" (mkDate 2026 1 1) (mkDate 2026 1 31) "".

Definition food (cents : Z) (refund : bool) (d : Z) : Transaction :=
  mkTransaction 1 (Some 1%nat) expense cents refund "USD" None
                (mkDate 2026 1 d) "Food".

(** A 20.00 purchase followed by a 100.00 refund leaves a spend of zero. *)
Lemma spent_amount_refunds_exceed_spend :
  Ledger.sum (map effective_amount
    (filter (Budgets.in_budget food_budget)
            [food 2000 false 15; food 10000 true 16])) <= 0
  /\ Budgets.spent_amount [food 2000 false 15; food 10000 true 16] food_budget
     = 0.
Proof.
  split.
  - vm_compute. discriminate.
  - apply (spent_amount_is_floored_net_expense
             [food 2000 false 15; food 10000 true 16] food_budget).
    vm_compute. discriminate.
Defined.

(** The owner's rows split by kind, as the three queries of [dashboard]
    split them. *)
Lemma net_worth_step (u : nat) (t : Transaction) (db : list Transaction) :
  Dashboard.net_worth (t :: db) u
  = (if Nat.eqb (user t) u then signed_amount t else 0)
    + Dashboard.net_worth db u.
Proof.
  unfold Dashboard.net_worth, Dashboard.total_income,
    Dashboard.total_expense, Dashboard.total_refunds.
  rewrite !aggregate_or_zero. simpl filter.
  unfold signed_amount.
  destruct (Nat.eqb (user t) u); destruct (type t); destruct (is_refund t);
    simpl; rewrite <- ?aggregate_or_zero; unfold Ledger.sum; simpl;
    rewrite ?aggregate_or_zero; unfold Ledger.sum; lia.
Qed.


(** ** Derived amounts *)

Definition with_is_refund (r : bool) (t : Transaction) : Transaction :=
  mkTransaction (user t) (category t) (type t) (amount t) r (currency t)
                (amount_in_preferred_currency t) (date t) (description t).

Definition salary : Transaction :=
  mkTransaction 1 (Some 2%nat) income 100000 false "USD" None
                (mkDate 2026 1 5) "Salary".

(** C3 as stated does not hold: [effective_amount] does not read the
    direction, so an income row flagged [is_refund] has a negative
    effective amount. *)
Lemma income_refund_flag_reaches_effective_amount :
  ~ (forall t r, type t = income ->
       effective_amount (with_is_refund r t) = amount t
       /\ signed_amount (with_is_refund r t) = amount t).
Proof.
  intro H. destruct (H salary true eq_refl) as [E _].
  vm_compute in E. discriminate E.
Qed.

(** C3, amended. On an income transaction [signed_amount] is [+amount]
    whatever [is_refund] is; [effective_amount] follows [is_refund] alone:
    [-amount] when it is set, [+amount] when it is not. *)
Theorem income_signed_amount_ignores_is_refund (t : Transaction) (r : bool) :
  type t = income ->
  signed_amount (with_is_refund r t) = amount t
  /\ effective_amount (with_is_refund r t)
     = (if r then - amount t else amount t).
Proof.
  intro H. unfold signed_amount, effective_amount. simpl. now rewrite H.
Qed.

Lemma income_signed_amount_ignores_is_refund_witness :
  signed_amount (with_is_refund true salary) = 100000
  /\ effective_amount (with_is_refund true salary) = - 100000.
Proof.
  apply (income_signed_amount_ignores_is_refund salary true). reflexivity.
Defined.

(** ** Budget usage and status *)

Lemma of_cents_nonzero (c : Z) : c <> 0 -> Qeq_bool (Py.of_cents c) 0 = false.
Proof.
  intro H. unfold Py.of_cents, Qeq_bool. simpl.
  apply Z.eqb_neq. lia.
Qed.

Lemma of_cents_zero : Qeq_bool (Py.of_cents 0) 0 = true.
Proof. reflexivity. Qed.

Lemma round_sig_proper (beta p : Z) (x y : Q) :
  (x == y)%Q -> Py.round_sig beta p x = Py.round_sig beta p y.
Proof.
  intro H. unfold Py.round_sig. now rewrite (Qred_complete x y H).
Qed.

Lemma usage_percentage_returns (db : list Transaction) (b : Budgets.Budget) :
  exists pct, Budgets.usage_percentage db b = Py.Ok pct.
Proof.
  unfold Budgets.usage_percentage.
  destruct (Budgets.amount b =? 0) eqn:E.
  - eexists. reflexivity.
  - apply Z.eqb_neq in E. unfold Py.decimal_div.
    rewrite (of_cents_nonzero _ E). simpl. eexists. reflexivity.
Qed.

(** C4. With a cap of zero [usage_percentage] returns the integer 0 whatever
    was spent: a value, neither an exception nor an infinity.  The guard is
    what keeps it from raising: the division it skips would raise a decimal
    division error. *)
Theorem usage_percentage_zero_cap (db : list Transaction) (b : Budgets.Budget) :
  Budgets.amount b = 0 ->
  Budgets.usage_percentage db b = Py.Ok (Py.PyInt 0)
  /\ (exists e,
        Py.decimal_div (Py.of_cents (Budgets.spent_amount db b))
                       (Py.of_cents (Budgets.amount b))
        = Py.Raise e).
Proof.
  intro H. unfold Budgets.usage_percentage. rewrite H. split.
  - reflexivity.
  - unfold Py.decimal_div. rewrite of_cents_zero.
    destruct (Qeq_bool _ 0); eexists; reflexivity.
Qed.

Definition with_cap (cents : Z) : Budgets.Budget :=
  Budgets.mkBudget 1 1 cents "USD" (mkDate 2026 1 1) (mkDate 2026 1 31) "".

Lemma usage_percentage_zero_cap_witness :
  Budgets.usage_percentage [food 15000 false 15] (with_cap 0)
  = Py.Ok (Py.PyInt 0).
Proof.
  apply (usage_percentage_zero_cap [food 15000 false 15] (with_cap 0)).
  reflexivity.
Defined.

Lemma Qle_bool_false (x y : Q) : (y < x)%Q -> Qle_bool x y = false.
Proof.
  intro H. destruct (Qle_bool x y) eqn:E; [|reflexivity].
  apply Qle_bool_iff in E. exfalso. exact (Qlt_not_le _ _ H E).
Qed.

Lemma status_of_usage (db : list Transaction) (b : Budgets.Budget) (pct : Py.num) :
  Budgets.usage_percentage db b = Py.Ok pct ->
  Budgets.status db b
  = Py.Ok (if Qle_bool 100 (Py.value pct) then "exceeded"
           else if Qle_bool 80 (Py.value pct) then "warning"
           else "good")%string.
Proof.
  intro H. unfold Budgets.status. rewrite H. simpl. unfold Py.ge. simpl.
  change (inject_Z 100) with 100%Q. change (inject_Z 80) with 80%Q.
  destruct (Qle_bool 100 (Py.value pct)); [reflexivity|].
  destruct (Qle_bool 80 (Py.value pct)); reflexivity.
Qed.

(** C5. [status] is "exceeded" from a usage of 100 on, "warning" from 80 up
    to but not including 100, and "good" below 80.  Budgets with a cap of
    1000.00 and a spend of 799.00, 800.00, 999.00 and 1000.00 have the
    usages 79.9, 80.0, 99.9 and 100.0 and the statuses "good", "warning",
    "warning" and "exceeded". *)
Theorem status_thresholds :
  (forall db b, exists pct,
      Budgets.usage_percentage db b = Py.Ok pct
      /\ ((100 <= Py.value pct)%Q ->
          Budgets.status db b = Py.Ok "exceeded"%string)
      /\ ((80 <= Py.value pct)%Q /\ (Py.value pct < 100)%Q ->
          Budgets.status db b = Py.Ok "warning"%string)
      /\ ((Py.value pct < 80)%Q ->
          Budgets.status db b = Py.Ok "good"%string))
  /\ (let db := [food 79900 false 15] in
      Budgets.usage_percentage db (with_cap 100000)
      = Py.Ok (Py.PyFloat (Py.float (799 # 10)))
      /\ Budgets.status db (with_cap 100000) = Py.Ok "good"%string)
  /\ (let db := [food 80000 false 15] in
      Budgets.usage_percentage db (with_cap 100000)
      = Py.Ok (Py.PyFloat (Py.float 80))
      /\ Budgets.status db (with_cap 100000) = Py.Ok "warning"%string)
  /\ (let db := [food 99900 false 15] in
      Budgets.usage_percentage db (with_cap 100000)
      = Py.Ok (Py.PyFloat (Py.float (999 # 10)))
      /\ Budgets.status db (with_cap 100000) = Py.Ok "warning"%string)
  /\ (let db := [food 100000 false 15] in
      Budgets.usage_percentage db (with_cap 100000)
      = Py.Ok (Py.PyFloat (Py.float 100))
      /\ Budgets.status db (with_cap 100000) = Py.Ok "exceeded"%string).
Proof.
  split.
  - intros db b. destruct (usage_percentage_returns db b) as [pct H].
    exists pct. split; [exact H|]. rewrite (status_of_usage db b pct H).
    split; [|split].
    + intro G. apply Qle_bool_iff in G. now rewrite G.
    + intros [G L]. apply Qle_bool_iff in G.
      rewrite (Qle_bool_false _ _ L). now rewrite G.
    + intro L. rewrite (Qle_bool_false 80 _ L).
      rewrite Qle_bool_false; [reflexivity|].
      apply Qlt_trans with (y := 80%Q); [exact L|reflexivity].
  - repeat split; vm_compute; reflexivity.
Qed.

Lemma status_thresholds_witness :
  exists pct,
    Budgets.usage_percentage [food 15000 false 15] (with_cap 10000) = Py.Ok pct
    /\ Budgets.status [food 15000 false 15] (with_cap 10000)
       = Py.Ok "exceeded"%string.
Proof.
  destruct status_thresholds as [H _].
  destruct (H [food 15000 false 15] (with_cap 10000)) as [pct [E [X _]]].
  exists pct. split; [exact E|]. apply X.
  assert (V : pct = Py.PyFloat 150).
  { assert (C : Budgets.usage_percentage [food 15000 false 15] (with_cap 10000)
                = Py.Ok (Py.PyFloat 150)) by (vm_compute; reflexivity).
    rewrite C in E. now injection E. }
  rewrite V. vm_compute. discriminate.
Defined.

(** C10. When a positive cap is spent exactly, the usage is the float 100.0
    and [status] reads "exceeded", while [is_exceeded], a strict comparison
    of the amounts, is false. *)
Theorem exceeded_indicators_split_at_cap
        (db : list Transaction) (b : Budgets.Budget) :
  0 < Budgets.amount b ->
  Budgets.spent_amount db b = Budgets.amount b ->
  Budgets.usage_percentage db b = Py.Ok (Py.PyFloat 100)
  /\ Budgets.status db b = Py.Ok "exceeded"%string
  /\ Budgets.is_exceeded db b = false.
Proof.
  intros Hpos Hspent.
  assert (U : Budgets.usage_percentage db b = Py.Ok (Py.PyFloat 100)).
  { unfold Budgets.usage_percentage. rewrite Hspent.
    replace (Budgets.amount b =? 0) with false
      by (symmetry; apply Z.eqb_neq; lia).
    unfold Py.decimal_div. rewrite of_cents_nonzero by lia. simpl Py.bind.
    unfold Py.decimal_round.
    rewrite (round_sig_proper 10 28 _ 1%Q).
    - vm_compute. reflexivity.
    - apply Qmult_inv_r. unfold Py.of_cents, Qeq. simpl. lia. }
  split; [exact U|split].
  - rewrite (status_of_usage db b _ U). reflexivity.
  - unfold Budgets.is_exceeded. rewrite Hspent. apply Z.ltb_irrefl.
Qed.

Lemma exceeded_indicators_split_at_cap_witness :
  Budgets.usage_percentage [food 10000 false 15] (with_cap 10000)
  = Py.Ok (Py.PyFloat 100)
  /\ Budgets.status [food 10000 false 15] (with_cap 10000)
     = Py.Ok "exceeded"%string
  /\ Budgets.is_exceeded [food 10000 false 15] (with_cap 10000) = false.
Proof.
  apply (exceeded_indicators_split_at_cap [food 10000 false 15] (with_cap 10000)).
  - reflexivity.
  - reflexivity.
Defined.

(** ** Month arithmetic *)

(** The loop keeps the month count [12 * year + month] and ends on a month
    number above zero; it leaves a month of at most 12 when it starts from
    one. *)
Lemma rollover_spec (month0 year0 : Z) :
  let '(m, y) := Dashboard.rollover month0 year0 in
  12 * y + m = 12 * year0 + month0
  /\ 1 <= m
  /\ (month0 <= 12 -> m <= 12).
Proof.
  funelim (Dashboard.rollover month0 year0).
  - destruct (Dashboard.rollover (month0 + 12) (year0 - 1)) as [m y].
    destruct H as [I [L U]]. repeat split; lia.
  - repeat split; lia.
Qed.

(** C8. Walking back [n] months from a date lands on the calendar month
    that lies [n] months earlier, with a month number between 1 and 12 and
    the year lowered at each passage through January: one month back from
    January of [Y] is December of [Y - 1]; one month back from January 2026
    is December 2025 and six months back from March 2026 is September
    2025.  The pair returned is (month, year). *)
Theorem months_ago_rolls_over_years (today : Date) (n : Z) :
  1 <= month today <= 12 ->
  0 <= n ->
  (let '(m, y) := Dashboard._months_ago today n in
   1 <= m <= 12 /\ 12 * y + m = 12 * year today + month today - n)
  /\ (month today = 1 ->
      Dashboard._months_ago today 1 = (12, year today - 1))
  /\ Dashboard._months_ago (mkDate 2026 1 20) 1 = (12, 2025)
  /\ Dashboard._months_ago (mkDate 2026 3 20) 6 = (9, 2025).
Proof.
  intros Hm Hn. split; [|split; [|split; reflexivity]].
  - unfold Dashboard._months_ago.
    pose proof (rollover_spec (month today - n) (year today)) as S.
    destruct (Dashboard.rollover (month today - n) (year today)) as [m y].
    lia.
  - intro J. unfold Dashboard._months_ago. rewrite J.
    pose proof (rollover_spec (1 - 1) (year today)) as S.
    destruct (Dashboard.rollover (1 - 1) (year today)) as [m y].
    f_equal; lia.
Qed.

Lemma months_ago_rolls_over_years_witness :
  Dashboard._months_ago (mkDate 2024 1 31) 1 = (12, 2023).
Proof.
  apply (months_ago_rolls_over_years (mkDate 2024 1 31) 1).
  - simpl. lia.
  - lia.
  - reflexivity.
Defined.

(** ** Currency fields and the budget computation *)








(** ** Currency conversion *)

Import Env.

(** The ways the rate lookup can fail: the request itself fails, the body
    does not decode or is no JSON object, the "result" field is not
    "success", or a success carries no number under "conversion_result"
    (Python's [round] takes JSON integers, reals and booleans as numbers). *)
Inductive lookup_failed : Py.result Response -> Prop :=
| network_error (e : Py.exn) :
    lookup_failed (Py.Raise e)
| undecodable_body (r : Response) (e : Py.exn) :
    body r = Py.Raise e -> lookup_failed (Py.Ok r)
| not_an_object (r : Response) (data : json) :
    body r = Py.Ok data -> (forall kv, data <> JDict kv) ->
    lookup_failed (Py.Ok r)
| non_success (r : Response) (kv : list (string * json)) :
    body r = Py.Ok (JDict kv) ->
    lookup "result" kv <> Some (JStr "success") ->
    lookup_failed (Py.Ok r)
| no_conversion_result (r : Response) (kv : list (string * json)) :
    body r = Py.Ok (JDict kv) ->
    match lookup "conversion_result" kv with
    | Some (JInt _) | Some (JFloat _) | Some (JBool _) => False
    | _ => True
    end ->
    lookup_failed (Py.Ok r).

Lemma is_success_spec (v : json) :
  is_success v = true <-> v = JStr "success".
Proof.
  destruct v; simpl; try (split; [discriminate|discriminate]).
  rewrite String.eqb_eq. split; [now intros ->|now intros [= ->]].
Qed.

Lemma convert_currency_same rate_source key amount c w :
  Views.convert_currency rate_source key amount c c w = (Py.Ok amount, w).
Proof.
  unfold Views.convert_currency. now rewrite String.eqb_refl.
Qed.

Lemma convert_currency_returns rate_source key amount c1 c2 w :
  exists v, fst (Views.convert_currency rate_source key amount c1 c2 w)
            = Py.Ok v.
Proof.
  unfold Views.convert_currency.
  destruct (String.eqb c1 c2); [eexists; reflexivity|].
  unfold try_except.
  match goal with
  | |- context [match ?m with (_, _) => _ end] => destruct m as [[v|e] w']
  end; eexists; reflexivity.
Qed.

(** C6. [convert_currency] returns the amount unchanged when the two
    currencies are equal, and leaves the world as it was: no request goes
    to the rate source.  When the lookup fails it returns the original
    amount; it never raises. *)
Theorem convert_currency_is_fail_open
        (rate_source : RateRequest -> Py.result Response) (key : string)
        (amount : Py.num) (from_currency to_currency : string) (w : World) :
  (from_currency = to_currency ->
   Views.convert_currency rate_source key amount from_currency to_currency w
   = (Py.Ok amount, w))
  /\ (from_currency <> to_currency ->
      lookup_failed
        (rate_source (mkRateRequest key from_currency to_currency amount)) ->
      fst (Views.convert_currency rate_source key amount
                                  from_currency to_currency w)
      = Py.Ok amount)
  /\ (exists v,
        fst (Views.convert_currency rate_source key amount
                                    from_currency to_currency w)
        = Py.Ok v).
Proof.
  split; [|split].
  - intros ->. apply convert_currency_same.
  - intros N F. unfold Views.convert_currency.
    apply String.eqb_neq in N. rewrite N.
    unfold try_except, bind, Views.requests_get, lift, ret. cbv beta zeta.
    inversion F as [e E|r e B E|r data B D E|r kv B R E|r kv B C E];
      simpl; try reflexivity.
    + rewrite B. reflexivity.
    + rewrite B. destruct data; simpl; try reflexivity.
      exfalso. exact (D kv eq_refl).
    + rewrite B. simpl. destruct (lookup "result" kv) as [v|] eqn:L.
      * destruct (is_success v) eqn:S; [|reflexivity].
        apply is_success_spec in S. subst v. now exfalso.
      * reflexivity.
    + rewrite B. simpl. destruct (lookup "result" kv) as [v|]; simpl.
      * destruct (is_success v); [|reflexivity].
        destruct (lookup "conversion_result" kv) as [[ | | | | | | ]|];
          simpl; try reflexivity; contradiction.
      * reflexivity.
  - apply convert_currency_returns.
Qed.

Definition offline : RateRequest -> Py.result Response :=
  fun _ => Py.Raise Py.RequestException.

Definition quoting (rate : json) : RateRequest -> Py.result Response :=
  fun _ => Py.Ok (mkResponse 200
    (Py.Ok (JDict [("result", JStr "success");
                   ("conversion_result", rate)]%string))).

Definition no_mail : Email -> Py.result unit :=
  fun _ => Py.Raise Py.SMTPException.

Definition empty_world : World := mkWorld [] [] [] [] [] [].

Lemma convert_currency_is_fail_open_witness :
  Views.convert_currency offline "key" (Py.PyDecimal 1000) "USD" "USD"
                         empty_world
  = (Py.Ok (Py.PyDecimal 1000), empty_world)
  /\ fst (Views.convert_currency offline "key" (Py.PyDecimal 1000)
                                 "USD" "EUR" empty_world)
     = Py.Ok (Py.PyDecimal 1000).
Proof.
  destruct (convert_currency_is_fail_open offline "key" (Py.PyDecimal 1000)
              "USD" "USD" empty_world) as [Same _].
  destruct (convert_currency_is_fail_open offline "key" (Py.PyDecimal 1000)
              "USD" "EUR" empty_world) as [_ [Fail _]].
  split.
  - apply Same. reflexivity.
  - apply Fail.
    + discriminate.
    + apply network_error.
Defined.

(** A lookup that succeeds is used, rounded to two places, and is logged as
    one request. *)
Example convert_currency_converts :
  Views.convert_currency (quoting (JFloat (9234 # 1000))) "key"
                         (Py.PyDecimal 1000) "USD" "EUR" empty_world
  = (Py.Ok (Py.PyFloat (Py.float (923 # 100))),
     mkWorld [] [] [] []
             [mkRateRequest "key" "USD" "EUR" (Py.PyDecimal 1000)] []).
Proof. vm_compute. reflexivity. Qed.

(** ** Owners without a profile *)

Definition january_20 : Date := mkDate 2026 1 20.

(** User 1 has an active budget and no [UserProfile] row. *)
Definition profileless_world : World :=
  mkWorld [] [food_budget] [] [] [] [].

(** C7 is not met by the views.  For an owner without a profile row the
    dashboard helper falls back to "USD", but [transaction_create] raises
    on [request.user.profile] before anything is converted or saved, and
    [_check_budget_alert] raises on the same access as soon as the owner
    has an active budget for the category. *)
Theorem missing_profile_raises_in_views
        (rate_source : RateRequest -> Py.result Response)
        (mail_transport : Email -> Py.result unit) (key : string) :
  Dashboard._get_currency (profiles profileless_world) 1 = "USD"%string
  /\ Views.transaction_create rate_source mail_transport key january_20
       1 (food 10000 false 15) profileless_world
     = (Py.Raise Py.RelatedObjectDoesNotExist, profileless_world)
  /\ Views._check_budget_alert mail_transport january_20
       1 (food 10000 false 15)
       (mkWorld [food 10000 false 15] [food_budget] [] [] [] [])
     = (Py.Raise Py.RelatedObjectDoesNotExist,
        mkWorld [food 10000 false 15] [food_budget] [] [] [] []).
Proof.
  repeat split.
Qed.

(** ** The figures of the test suite and of the worked scenarios *)

Example test_refund_effective_amount :
  effective_amount (food 2000 true 16) = - 2000.
Proof. reflexivity. Qed.

Example test_signed_amount_income : signed_amount salary = 100000.
Proof. reflexivity. Qed.

Example test_signed_amount_expense :
  signed_amount (food 5000 false 15) = - 5000.
Proof. reflexivity. Qed.

Example test_budget_with_refund :
  Budgets.spent_amount [food 10000 false 15; food 2000 true 16] food_budget
  = 8000.
Proof. reflexivity. Qed.

Example test_budget_usage_percentage :
  Budgets.usage_percentage [food 25000 false 15] food_budget
  = Py.Ok (Py.PyFloat 50).
Proof. vm_compute. reflexivity. Qed.

Example test_budget_exceeded :
  Budgets.is_exceeded [food 60000 false 15] food_budget = true.
Proof. reflexivity. Qed.

(** 100.00 spent and 20.00 refunded against a cap of 500.00. *)
Example scenario_food_january :
  let db := [food 10000 false 15; food 2000 true 16] in
  Budgets.spent_amount db food_budget = 8000
  /\ Budgets.remaining_amount db food_budget = 42000
  /\ Budgets.usage_percentage db food_budget = Py.Ok (Py.PyFloat 16)
  /\ Budgets.status db food_budget = Py.Ok "good"%string.
Proof. repeat split; vm_compute; reflexivity. Qed.

(** 150.00 spent against a cap of 100.00. *)
Example scenario_over_cap :
  let db := [food 15000 false 15] in
  Budgets.spent_amount db (with_cap 10000) = 15000
  /\ Budgets.remaining_amount db (with_cap 10000) = - 5000
  /\ Budgets.usage_percentage db (with_cap 10000) = Py.Ok (Py.PyFloat 150)
  /\ Budgets.status db (with_cap 10000) = Py.Ok "exceeded"%string
  /\ Budgets.is_exceeded db (with_cap 10000) = true.
Proof. repeat split; vm_compute; reflexivity. Qed.

(** A quotient that is not a short decimal goes through both roundings:
    100.00 spent against 300.00 is the float 33.333333333333336. *)
Example usage_one_third :
  Budgets.usage_percentage [food 10000 false 15] (with_cap 30000)
  = Py.Ok (Py.PyFloat (4691249611844267 # 140737488355328)).
Proof. vm_compute. reflexivity. Qed.

(** An owner with a profile: a 450.00 purchase against the 500.00 cap
    crosses the threshold of 80, so the alert is flashed, one mail is
    attempted, and the failure of the transport is not propagated. *)
Example transaction_create_alerts :
  Views.transaction_create offline no_mail "key" january_20 1
    (food 45000 false 20)
    (mkWorld [] [food_budget] [Accounts.mkUserProfile 1 "USD" true 80]
             [] [] [])
  = (Py.Ok tt,
     mkWorld [mkTransaction 1 (Some 1%nat) expense 45000 false "USD"
                            (Some (Py.PyDecimal 45000)) (mkDate 2026 1 20)
                            "Food"]
             [food_budget] [Accounts.mkUserProfile 1 "USD" true 80]
             [BudgetAlert (Py.PyFloat 90) 1; TransactionAdded]
             []
             [mkEmail 1 1 (Approaching (Py.PyFloat 90) 50000 45000 5000)]).
Proof. vm_compute. reflexivity. Qed.

(** * Further properties *)

(** ** Rounding never crosses zero or a small integer *)

Lemma round_half_even_floor (n d : Z) :
  0 <= n -> 0 < d -> n / d <= Py.round_half_even n d.
Proof.
  intros Hn Hd. unfold Py.round_half_even.
  destruct (2 * (n mod d) ?= d); [destruct (Z.even (n / d))| |]; lia.
Qed.

Lemma round_half_even_nonneg (n d : Z) :
  0 <= n -> 0 < d -> 0 <= Py.round_half_even n d.
Proof.
  intros Hn Hd. pose proof (round_half_even_floor n d Hn Hd).
  pose proof (Z.div_pos n d Hn Hd). lia.
Qed.

Lemma search_exp_found (fuel : nat) (beta hi n d : Z) :
  Py.pow_le beta (Py.search_exp fuel beta hi n d) n d = true
  \/ Py.search_exp fuel beta hi n d = hi - Z.of_nat fuel.
Proof.
  revert hi. induction fuel as [|fuel IH]; intro hi.
  - right. simpl. lia.
  - cbn [Py.search_exp]. destruct (Py.pow_le beta hi n d) eqn:E.
    + now left.
    + destruct (IH (hi - 1)) as [F|F]; [now left|right]. rewrite F. lia.
Qed.

(** The exponent [floor_log] returns is not above the true one. *)
Lemma floor_log_sound (beta n d : Z) :
  2 <= beta -> 0 < n -> 0 < d ->
  Py.pow_le beta (Py.floor_log beta n d) n d = true.
Proof.
  intros Hb Hn Hd. unfold Py.floor_log.
  destruct (search_exp_found
              (Z.to_nat (Z.log2 n - - (Z.log2 d + 1))) beta (Z.log2 n) n d)
    as [F|F]; [exact F|].
  rewrite F. pose proof (Z.log2_nonneg n). pose proof (Z.log2_nonneg d).
  rewrite Z2Nat.id by lia.
  replace (Z.log2 n - (Z.log2 n - - (Z.log2 d + 1))) with (- (Z.log2 d + 1))
    by lia.
  unfold Py.pow_le.
  replace (0 <=? - (Z.log2 d + 1)) with false by (symmetry; apply Z.leb_gt; lia).
  rewrite Z.opp_involutive. apply Z.leb_le.
  destruct (Z.log2_spec d Hd) as [_ U].
  assert (P : 2 ^ (Z.log2 d + 1) <= beta ^ (Z.log2 d + 1))
    by (apply Z.pow_le_mono_l; lia).
  unfold Z.succ in U. nia.
Qed.

Lemma Qred_num_sign (x : Q) :
  (0 <= x)%Q -> 0 <= Qnum (Qred x).
Proof.
  intro H. assert (E : (0 <= Qred x)%Q) by now rewrite Qred_correct.
  unfold Qle in E. simpl in E. lia.
Qed.

Lemma round_sig_nonneg (beta p : Z) (x : Q) :
  0 < beta -> (0 <= x)%Q -> (0 <= Py.round_sig beta p x)%Q.
Proof.
  intros Hb Hx. unfold Py.round_sig.
  pose proof (Qred_num_sign x Hx) as Hn.
  set (y := Qred x) in *.
  destruct (Z.abs (Qnum y) =? 0) eqn:E0; [apply Qle_refl|].
  apply Z.eqb_neq in E0. rewrite Qred_correct.
  assert (Hs : Z.sgn (Qnum y) = 1) by (apply Z.sgn_pos; lia).
  rewrite Hs, !Z.mul_1_l.
  set (e := Py.floor_log beta (Z.abs (Qnum y)) (Z.pos (Qden y))).
  destruct (0 <=? p - 1 - e) eqn:K.
  - apply Z.leb_le in K. unfold Qle. cbn [Qnum Qden]. rewrite ?Z.mul_1_r, ?Z.mul_0_l.
    apply round_half_even_nonneg; [|lia].
    apply Z.mul_nonneg_nonneg; [lia|]. apply Z.pow_nonneg. lia.
  - apply Z.leb_gt in K. unfold Qle, inject_Z. cbn [Qnum Qden].
    rewrite ?Z.mul_1_r, ?Z.mul_0_l.
    apply Z.mul_nonneg_nonneg.
    + apply round_half_even_nonneg; [lia|].
      apply Z.mul_pos_pos; [lia|]. apply Z.pow_pos_nonneg; lia.
    + apply Z.pow_nonneg. lia.
Qed.

Lemma round_sig_nonpos (beta p : Z) (x : Q) :
  0 < beta -> (x <= 0)%Q -> (Py.round_sig beta p x <= 0)%Q.
Proof.
  intros Hb Hx. unfold Py.round_sig.
  assert (Hn : Qnum (Qred x) <= 0).
  { assert (E : (Qred x <= 0)%Q) by now rewrite Qred_correct.
    unfold Qle in E. cbn [Qnum Qden] in E. lia. }
  set (y := Qred x) in *.
  destruct (Z.abs (Qnum y) =? 0) eqn:E0; [apply Qle_refl|].
  apply Z.eqb_neq in E0. rewrite Qred_correct.
  assert (Hs : Z.sgn (Qnum y) = -1) by (apply Z.sgn_neg; lia).
  rewrite Hs.
  set (e := Py.floor_log beta (Z.abs (Qnum y)) (Z.pos (Qden y))).
  destruct (0 <=? p - 1 - e) eqn:K.
  - apply Z.leb_le in K. unfold Qle. cbn [Qnum Qden].
    rewrite ?Z.mul_1_r, ?Z.mul_0_l.
    assert (0 <= Py.round_half_even
                    (Z.abs (Qnum y) * beta ^ (p - 1 - e)) (Z.pos (Qden y))).
    { apply round_half_even_nonneg; [|lia].
      apply Z.mul_nonneg_nonneg; [lia|]. apply Z.pow_nonneg. lia. }
    lia.
  - apply Z.leb_gt in K. unfold Qle, inject_Z. cbn [Qnum Qden].
    rewrite ?Z.mul_1_r, ?Z.mul_0_l.
    assert (0 <= Py.round_half_even (Z.abs (Qnum y))
                    (Z.pos (Qden y) * beta ^ (- (p - 1 - e)))).
    { apply round_half_even_nonneg; [lia|].
      apply Z.mul_pos_pos; [lia|]. apply Z.pow_pos_nonneg; lia. }
    assert (0 <= beta ^ (- (p - 1 - e))) by (apply Z.pow_nonneg; lia).
    nia.
Qed.

(** Rounding to [p] digits does not take a number below an integer it has
    reached, as long as that integer has at most [p] digits. *)
Lemma round_sig_keeps_integer_bound (beta p c : Z) (x : Q) :
  2 <= beta -> 1 <= p -> 1 <= c <= beta ^ p ->
  (inject_Z c <= x)%Q -> (inject_Z c <= Py.round_sig beta p x)%Q.
Proof.
  intros Hb Hp Hc Hx. unfold Py.round_sig.
  assert (Hy : (inject_Z c <= Qred x)%Q) by now rewrite Qred_correct.
  set (y := Qred x) in *.
  unfold Qle, inject_Z in Hy. cbn [Qnum Qden] in Hy. rewrite Z.mul_1_r in Hy.
  assert (Hd : 0 < Z.pos (Qden y)) by lia.
  set (d := Z.pos (Qden y)) in *.
  assert (Hn : c * d <= Qnum y) by exact Hy.
  assert (Hpos : 0 < Qnum y) by nia.
  replace (Z.abs (Qnum y)) with (Qnum y) by lia.
  replace (Qnum y =? 0) with false by (symmetry; apply Z.eqb_neq; lia).
  rewrite Qred_correct.
  replace (Z.sgn (Qnum y)) with 1 by (symmetry; apply Z.sgn_pos; lia).
  rewrite !Z.mul_1_l.
  pose proof (floor_log_sound beta (Qnum y) d Hb Hpos Hd) as S.
  set (e := Py.floor_log beta (Qnum y) d) in *.
  destruct (0 <=? p - 1 - e) eqn:K.
  - apply Z.leb_le in K.
    assert (B : 0 < beta ^ (p - 1 - e)) by (apply Z.pow_pos_nonneg; lia).
    pose proof (round_half_even_floor (Qnum y * beta ^ (p - 1 - e)) d
                  ltac:(nia) Hd) as F.
    assert (L : c * beta ^ (p - 1 - e)
                <= Qnum y * beta ^ (p - 1 - e) / d).
    { apply Z.div_le_lower_bound; [exact Hd|]. nia. }
    unfold Qle, inject_Z. cbn [Qnum Qden].
    rewrite Z2Pos.id by exact B. rewrite Z.mul_1_r. lia.
  - apply Z.leb_gt in K.
    set (j := - (p - 1 - e)) in *.
    assert (J : 0 < j) by (unfold j; lia).
    assert (B : 0 < beta ^ j) by (apply Z.pow_pos_nonneg; lia).
    assert (E : e = (p - 1) + j) by (unfold j; lia).
    unfold Py.pow_le in S.
    replace (0 <=? e) with true in S by (symmetry; apply Z.leb_le; lia).
    apply Z.leb_le in S. rewrite E, Z.pow_add_r in S by lia.
    pose proof (round_half_even_floor (Qnum y) (d * beta ^ j)
                  ltac:(lia) ltac:(nia)) as F.
    assert (L : beta ^ (p - 1) <= Qnum y / (d * beta ^ j)).
    { apply Z.div_le_lower_bound; [nia|]. nia. }
    assert (P : beta ^ p <= beta ^ (p - 1) * beta ^ j).
    { replace p with ((p - 1) + 1) at 1 by lia.
      rewrite Z.pow_add_r by lia. rewrite Z.pow_1_r.
      assert (beta <= beta ^ j).
      { replace beta with (beta ^ 1) at 1 by apply Z.pow_1_r.
        apply Z.pow_le_mono_r; lia. }
      assert (0 < beta ^ (p - 1)) by (apply Z.pow_pos_nonneg; lia).
      nia. }
    unfold Qle, inject_Z. cbn [Qnum Qden]. rewrite !Z.mul_1_r.
    assert (0 < beta ^ (p - 1)) by (apply Z.pow_pos_nonneg; lia).
    nia.
Qed.

(** ** Budgets: how the indicators relate *)

Lemma spent_amount_nonneg (db : list Transaction) (b : Budgets.Budget) :
  0 <= Budgets.spent_amount db b.
Proof. unfold Budgets.spent_amount. lia. Qed.

Lemma of_cents_ratio_ge_1 (s c : Z) :
  0 < c -> c <= s -> (inject_Z 1 <= Py.of_cents s / Py.of_cents c)%Q.
Proof.
  intros Hc Hs. unfold Py.of_cents.
  apply Qle_shift_div_l.
  - unfold Qlt. cbn [Qnum Qden]. lia.
  - unfold Qle, Qmult, inject_Z. cbn [Qnum Qden]. lia.
Qed.

Lemma usage_at_least_100 (db : list Transaction) (b : Budgets.Budget) :
  0 < Budgets.amount b ->
  Budgets.amount b <= Budgets.spent_amount db b ->
  exists f, Budgets.usage_percentage db b = Py.Ok (Py.PyFloat f)
            /\ (100 <= f)%Q.
Proof.
  intros Hc Hs. unfold Budgets.usage_percentage.
  replace (Budgets.amount b =? 0) with false
    by (symmetry; apply Z.eqb_neq; lia).
  unfold Py.decimal_div. rewrite of_cents_nonzero by lia. cbn [Py.bind].
  eexists. split; [reflexivity|].
  pose proof (of_cents_ratio_ge_1 _ _ Hc Hs) as R.
  apply (round_sig_keeps_integer_bound 10 28 1) in R; [|lia|lia|split; [lia|now apply Z.leb_le]].
  fold (Py.decimal_round
          (Py.of_cents (Budgets.spent_amount db b)
           / Py.of_cents (Budgets.amount b))) in R.
  set (q := Py.decimal_round _) in *.
  assert (M : (inject_Z 100 <= q * 100)%Q).
  { change (inject_Z 100) with (1 * 100)%Q.
    apply Qmult_le_compat_r; [exact R|discriminate]. }
  apply (round_sig_keeps_integer_bound 10 28 100) in M;
    [|lia|lia|split; [lia|now apply Z.leb_le]].
  apply (round_sig_keeps_integer_bound 2 53 100) in M;
    [|lia|lia|split; [lia|now apply Z.leb_le]].
  exact M.
Qed.

(** With a positive cap, a budget that is spent in full or overspent always
    reads "exceeded"; [is_exceeded] holds exactly when [remaining_amount] is
    negative, and the remainder never exceeds the cap. *)
Theorem overspent_budget_reads_exceeded
        (db : list Transaction) (b : Budgets.Budget) :
  0 < Budgets.amount b ->
  (Budgets.amount b <= Budgets.spent_amount db b ->
   Budgets.status db b = Py.Ok "exceeded"%string)
  /\ (Budgets.is_exceeded db b = true ->
      Budgets.status db b = Py.Ok "exceeded"%string)
  /\ (Budgets.is_exceeded db b = true <-> Budgets.remaining_amount db b < 0)
  /\ Budgets.remaining_amount db b <= Budgets.amount b.
Proof.
  intro Hc.
  assert (S : Budgets.amount b <= Budgets.spent_amount db b ->
              Budgets.status db b = Py.Ok "exceeded"%string).
  { intro Hs. destruct (usage_at_least_100 db b Hc Hs) as [f [U L]].
    rewrite (status_of_usage db b _ U). cbn [Py.value].
    apply Qle_bool_iff in L. now rewrite L. }
  pose proof (spent_amount_nonneg db b) as N.
  unfold Budgets.is_exceeded, Budgets.remaining_amount.
  rewrite Z.ltb_lt. repeat split; try lia.
  - exact S.
  - intro H. apply S. lia.
Qed.

Lemma overspent_budget_reads_exceeded_witness :
  Budgets.status [food 15000 false 15] (with_cap 10000)
  = Py.Ok "exceeded"%string.
Proof.
  apply (overspent_budget_reads_exceeded [food 15000 false 15] (with_cap 10000)).
  - reflexivity.
  - reflexivity.
Defined.

(** A negative cap passes the budget form; such a budget is always
    [is_exceeded], yet its usage is never above zero and its status is
    always "good". *)
Theorem negative_cap_is_exceeded_but_good
        (db : list Transaction) (b : Budgets.Budget) :
  Budgets.amount b < 0 ->
  Budgets.is_exceeded db b = true
  /\ Budgets.status db b = Py.Ok "good"%string
  /\ exists f, Budgets.usage_percentage db b = Py.Ok (Py.PyFloat f)
               /\ (f <= 0)%Q.
Proof.
  intro Hc. pose proof (spent_amount_nonneg db b) as N.
  assert (U : exists f, Budgets.usage_percentage db b = Py.Ok (Py.PyFloat f)
                        /\ (f <= 0)%Q).
  { unfold Budgets.usage_percentage.
    replace (Budgets.amount b =? 0) with false
      by (symmetry; apply Z.eqb_neq; lia).
    unfold Py.decimal_div. rewrite of_cents_nonzero by lia. cbn [Py.bind].
    eexists. split; [reflexivity|].
    apply round_sig_nonpos; [lia|]. apply round_sig_nonpos; [lia|].
    assert (Q0 : (Py.decimal_round
                    (Py.of_cents (Budgets.spent_amount db b)
                     / Py.of_cents (Budgets.amount b)) <= 0)%Q).
    { apply round_sig_nonpos; [lia|].
      unfold Py.of_cents, Qdiv, Qmult, Qinv, Qle. cbn [Qnum Qden].
      destruct (Budgets.amount b) as [|c|c]; try lia.
      cbn [Qnum Qden]. nia. }
    setoid_replace 0%Q with (0 * 100)%Q by reflexivity.
    apply Qmult_le_compat_r; [exact Q0|discriminate]. }
  split; [|split; [|exact U]].
  - unfold Budgets.is_exceeded. apply Z.ltb_lt. lia.
  - destruct U as [f [U L]]. rewrite (status_of_usage db b _ U).
    cbn [Py.value].
    rewrite (Qle_bool_false 100 f), (Qle_bool_false 80 f); [reflexivity| |].
    + apply Qle_lt_trans with (y := 0%Q); [exact L|reflexivity].
    + apply Qle_lt_trans with (y := 0%Q); [exact L|reflexivity].
Qed.

Lemma negative_cap_is_exceeded_but_good_witness :
  Budgets.is_exceeded [food 15000 false 15] (with_cap (-10000)) = true
  /\ Budgets.status [food 15000 false 15] (with_cap (-10000))
     = Py.Ok "good"%string.
Proof.
  destruct (negative_cap_is_exceeded_but_good
              [food 15000 false 15] (with_cap (-10000))) as [E [S _]].
  - reflexivity.
  - split; [exact E|exact S].
Defined.

(** ** Budgets: the table behind the figures *)

Lemma sum_app (l1 l2 : list Z) :
  Ledger.sum (l1 ++ l2) = Ledger.sum l1 + Ledger.sum l2.
Proof.
  unfold Ledger.sum. induction l1 as [|x l1 IH]; simpl; lia.
Qed.

Lemma counted_sum_permutation (f : Transaction -> bool) (g : Transaction -> Z)
      (l l' : list Transaction) :
  Permutation l l' ->
  Ledger.sum (map g (filter f l)) = Ledger.sum (map g (filter f l')).
Proof.
  induction 1 as [|x l l' P IH|x y l|l l' l'' P1 IH1 P2 IH2].
  - reflexivity.
  - simpl. destruct (f x); [|exact IH].
    unfold Ledger.sum in *. simpl. lia.
  - simpl. destruct (f x); destruct (f y); unfold Ledger.sum; simpl; lia.
  - now rewrite IH1.
Qed.

(** The figures of a budget do not depend on the order in which the table
    yields its rows. *)
Theorem budget_figures_ignore_row_order
        (db db' : list Transaction) (b : Budgets.Budget) :
  Permutation db db' ->
  Budgets.spent_amount db b = Budgets.spent_amount db' b
  /\ Budgets.usage_percentage db b = Budgets.usage_percentage db' b
  /\ Budgets.status db b = Budgets.status db' b
  /\ Budgets.is_exceeded db b = Budgets.is_exceeded db' b.
Proof.
  intro P.
  assert (S : Budgets.spent_amount db b = Budgets.spent_amount db' b).
  { rewrite !spent_amount_unfold.
    now rewrite (counted_sum_permutation _ _ db db' P). }
  unfold Budgets.status, Budgets.usage_percentage, Budgets.is_exceeded.
  now rewrite S.
Qed.

Lemma budget_figures_ignore_row_order_witness :
  Budgets.spent_amount [food 10000 false 15; food 2000 true 16] food_budget
  = Budgets.spent_amount [food 2000 true 16; food 10000 false 15] food_budget.
Proof.
  apply (budget_figures_ignore_row_order
           [food 10000 false 15; food 2000 true 16]
           [food 2000 true 16; food 10000 false 15] food_budget).
  apply perm_swap.
Defined.

Lemma spent_amount_after_save (db : list Transaction) (b : Budgets.Budget)
      (t : Transaction) :
  Budgets.spent_amount (db ++ [t]) b
  = if Budgets.in_budget b t
    then Z.max 0 (Ledger.sum (map effective_amount
                                  (filter (Budgets.in_budget b) db))
                  + effective_amount t)
    else Budgets.spent_amount db b.
Proof.
  rewrite !spent_amount_unfold, filter_app. simpl.
  destruct (Budgets.in_budget b t).
  - rewrite map_app, sum_app. unfold Ledger.sum at 2. simpl. f_equal. lia.
  - now rewrite app_nil_r.
Qed.

(** Saving one more transaction moves a budget's spend by at most the
    amount of the transaction: up for an expense, down for a refund, and
    not at all for a row outside the budget's owner, category, kind or
    period.  Because of the floor at zero the move can be smaller than the
    amount. *)
Theorem saving_a_row_moves_spend_by_at_most_its_amount
        (db : list Transaction) (b : Budgets.Budget) (t : Transaction) :
  0 <= amount t ->
  (Budgets.in_budget b t = false ->
   Budgets.spent_amount (db ++ [t]) b = Budgets.spent_amount db b)
  /\ (Budgets.in_budget b t = true -> is_refund t = false ->
      Budgets.spent_amount db b <= Budgets.spent_amount (db ++ [t]) b
      <= Budgets.spent_amount db b + amount t)
  /\ (Budgets.in_budget b t = true -> is_refund t = true ->
      Budgets.spent_amount db b - amount t
      <= Budgets.spent_amount (db ++ [t]) b <= Budgets.spent_amount db b).
Proof.
  intro A. rewrite spent_amount_after_save.
  rewrite (spent_amount_unfold db b). unfold effective_amount.
  repeat split; intros; 
    repeat match goal with
           | H : Budgets.in_budget b t = _ |- _ => rewrite H
           | H : is_refund t = _ |- _ => rewrite H
           end; lia.
Qed.

(** A 30.00 purchase after a 20.00 purchase and a 100.00 refund raises the
    spend from 0.00 to 0.00: the refund surplus absorbs it. *)
Lemma saving_a_row_moves_spend_by_at_most_its_amount_witness :
  Budgets.spent_amount [food 2000 false 10; food 10000 true 11] food_budget
  <= Budgets.spent_amount
       ([food 2000 false 10; food 10000 true 11] ++ [food 3000 false 12])
       food_budget
  <= Budgets.spent_amount [food 2000 false 10; food 10000 true 11] food_budget
     + 3000.
Proof.
  apply (saving_a_row_moves_spend_by_at_most_its_amount
           [food 2000 false 10; food 10000 true 11] food_budget
           (food 3000 false 12)).
  - simpl. lia.
  - reflexivity.
  - reflexivity.
Defined.

(** ** The monthly figures of the report and of the dashboard *)




(** The dashboard floors the month's expenses at zero before subtracting
    them.  Its monthly savings therefore equal the report's net savings for
    the same month when the month's net expense is not negative, and equal
    the bare income, below the report's figure, when refunds exceed
    spend. *)
Theorem dashboard_savings_against_report
        (db : list Transaction) (u : nat) (today : Date) :
  let m := month today in
  let y := year today in
  DashboardPage.monthly_savings db u today <= Reports.net_savings db u m y
  /\ (0 <= Reports.total_expenses db u m y ->
      DashboardPage.monthly_savings db u today = Reports.net_savings db u m y)
  /\ (Reports.total_expenses db u m y < 0 ->
      DashboardPage.monthly_savings db u today
      = Reports.total_income db u m y
      /\ DashboardPage.monthly_savings db u today
         < Reports.net_savings db u m y).
Proof.
  intros m y.
  unfold DashboardPage.monthly_savings, DashboardPage.monthly_income,
    DashboardPage.monthly_expenses, DashboardPage.monthly_qs,
    Reports.net_savings, Reports.total_income, Reports.total_expenses,
    Reports.transactions.
  fold m. fold y.
  set (inc := or_zero _). set (exp := fold_left _ _ 0).
  repeat split; intros; lia.
Qed.

Definition january_refund_surplus : list Transaction :=
  [salary; food 2000 false 10; food 10000 true 11].

Lemma dashboard_savings_against_report_witness :
  DashboardPage.monthly_savings january_refund_surplus 1 january_20 = 100000
  /\ Reports.net_savings january_refund_surplus 1 1 2026 = 108000.
Proof.
  destruct (dashboard_savings_against_report
              january_refund_surplus 1 january_20) as [_ [_ H]].
  destruct H as [E L].
  - vm_compute. reflexivity.
  - split; [rewrite E; reflexivity|reflexivity].
Defined.

(** ** The six-month chart *)

(** What the bar [i] months back must show. *)
Definition bar_of (today : Date) (i : Z) (e : DashboardPage.ChartEntry) : Prop :=
  day (DashboardPage.label e) = 1
  /\ 1 <= month (DashboardPage.label e) <= 12
  /\ 12 * year (DashboardPage.label e) + month (DashboardPage.label e)
     = 12 * year today + month today - i
  /\ (0 <= DashboardPage.chart_expense e)%Q.

Lemma net_bar_nonneg (exp ref : Z) : (0 <= DashboardPage.net_bar exp ref)%Q.
Proof.
  unfold DashboardPage.net_bar.
  destruct (Qle_bool 0 _) eqn:E; [now apply Qle_bool_iff|apply Qle_refl].
Qed.

Lemma chart_entry_ok (db : list Transaction) (u : nat) (today : Date) (i : Z) :
  1 <= month today <= 12 -> 2 <= year today <= 9999 -> 0 <= i <= 5 ->
  exists e, DashboardPage.chart_entry db u today i = Some e /\ bar_of today i e.
Proof.
  intros Hm Hy Hi. unfold DashboardPage.chart_entry, Dashboard._months_ago.
  pose proof (rollover_spec (month today - i) (year today)) as S.
  destruct (Dashboard.rollover (month today - i) (year today)) as [m y].
  destruct S as [I [L U]]. specialize (U ltac:(lia)).
  unfold DashboardPage.date_first.
  replace ((1 <=? m) && (m <=? 12) && (1 <=? y) && (y <=? 9999)) with true.
  - eexists. split; [reflexivity|]. unfold bar_of.
    cbn [DashboardPage.label DashboardPage.chart_expense day month year].
    split; [reflexivity|split; [lia|split; [lia|apply net_bar_nonneg]]].
  - symmetry. rewrite !andb_true_iff, !Z.leb_le. lia.
Qed.

(** On any day of the years 2 to 9999 the chart has six bars, oldest
    first: the bar in place [k] is labelled with the first day of the
    calendar month [5 - k] months before the current one, so the bars are
    consecutive months, the last one is the current month, and passages
    through January lower the year.  No bar shows a negative expense. *)
Theorem chart_shows_last_six_months
        (db : list Transaction) (u : nat) (today : Date) :
  1 <= month today <= 12 -> 2 <= year today <= 9999 ->
  exists bars,
    DashboardPage.monthly_data db u today = Some bars
    /\ Forall2 (bar_of today) [5; 4; 3; 2; 1; 0] bars
    /\ option_map DashboardPage.label (nth_error bars 5)
       = Some (mkDate (year today) (month today) 1).
Proof.
  intros Hm Hy. unfold DashboardPage.monthly_data. cbn [map].
  destruct (chart_entry_ok db u today 5 Hm Hy ltac:(lia)) as [e5 [E5 B5]].
  destruct (chart_entry_ok db u today 4 Hm Hy ltac:(lia)) as [e4 [E4 B4]].
  destruct (chart_entry_ok db u today 3 Hm Hy ltac:(lia)) as [e3 [E3 B3]].
  destruct (chart_entry_ok db u today 2 Hm Hy ltac:(lia)) as [e2 [E2 B2]].
  destruct (chart_entry_ok db u today 1 Hm Hy ltac:(lia)) as [e1 [E1 B1]].
  destruct (chart_entry_ok db u today 0 Hm Hy ltac:(lia)) as [e0 [E0 B0]].
  rewrite E5, E4, E3, E2, E1, E0. cbn [DashboardPage.collect].
  exists [e5; e4; e3; e2; e1; e0]. split; [reflexivity|split].
  - repeat (apply Forall2_cons; [assumption|]). apply Forall2_nil.
  - cbn [nth_error option_map]. f_equal.
    destruct B0 as (D & M & I & _).
    destruct (DashboardPage.label e0) as [y m d].
    cbn [day month year] in *. f_equal; lia.
Qed.

Lemma chart_shows_last_six_months_witness :
  exists bars,
    DashboardPage.monthly_data january_refund_surplus 1 january_20 = Some bars
    /\ Forall2 (bar_of january_20) [5; 4; 3; 2; 1; 0] bars
    /\ option_map DashboardPage.label (nth_error bars 5)
       = Some (mkDate 2026 1 1).
Proof.
  apply (chart_shows_last_six_months january_refund_surplus 1 january_20).
  - simpl. lia.
  - simpl. lia.
Defined.

(** In the year 1 the chart cannot reach back past January: the view
    fails on the date it builds. *)
Example chart_fails_in_year_one :
  DashboardPage.monthly_data [] 1 (mkDate 1 3 10) = None.
Proof. reflexivity. Qed.

Example chart_of_january_2026 :
  option_map (map DashboardPage.label)
             (DashboardPage.monthly_data january_refund_surplus 1 january_20)
  = Some [mkDate 2025 8 1; mkDate 2025 9 1; mkDate 2025 10 1;
          mkDate 2025 11 1; mkDate 2025 12 1; mkDate 2026 1 1].
Proof. vm_compute. reflexivity. Qed.

(** ** The monthly report: period and savings rate *)

(** Whatever the query string holds, the report shows a month between 1
    and 12 and a year from 2000 on, at most one year ahead of the current
    one, so the date it builds for its title exists.  A text that is no
    integer in either parameter discards both and shows the current
    month. *)
Theorem report_period_is_clamped (pmonth pyear : Reports.Param) (today : Date) :
  (forall m y, Reports.selected_period pmonth pyear today = (m, y) ->
     1 <= m <= 12 /\ 2000 <= y
     /\ (1999 <= year today -> y <= year today + 1)
     /\ (1999 <= year today <= 9998 ->
         DashboardPage.date_first y m = Some (mkDate y m 1)))
  /\ (pmonth = Reports.Text None \/ pyear = Reports.Text None ->
      Reports.selected_period pmonth pyear today
      = Reports.selected_period Reports.Absent Reports.Absent today)
  /\ (1 <= month today <= 12 -> 2000 <= year today ->
      Reports.selected_period Reports.Absent Reports.Absent today
      = (month today, year today)).
Proof.
  split; [|split].
  - intros m y H. unfold Reports.selected_period in H.
    destruct (Reports.int_param pmonth (month today)) as [m0|];
      [destruct (Reports.int_param pyear (year today)) as [y0|]|];
      injection H as <- <-;
      (split; [lia|split; [lia|split; [lia|]]]); intro B;
      unfold DashboardPage.date_first;
      match goal with
      | |- (if ?c then _ else _) = _ =>
          replace c with true
            by (symmetry; rewrite !andb_true_iff, !Z.leb_le; lia)
      end; reflexivity.
  - intros [-> | ->]; unfold Reports.selected_period; cbn [Reports.int_param].
    + reflexivity.
    + now destruct (Reports.int_param pmonth (month today)).
  - intros Hm Hy. unfold Reports.selected_period. cbn [Reports.int_param].
    f_equal; lia.
Qed.

Lemma report_period_is_clamped_witness :
  Reports.selected_period (Reports.Text (Some 13)) (Reports.Text None)
                          january_20
  = (1, 2026).
Proof.
  destruct (report_period_is_clamped (Reports.Text (Some 13))
              (Reports.Text None) january_20) as [_ [Bad Now]].
  rewrite Bad by (right; reflexivity).
  apply Now.
  - simpl. lia.
  - simpl. lia.
Defined.

(** The savings rate never raises: without income it is the integer 0, the
    division being skipped.  With income and no net expense in the month
    it is exactly 100, and it is negative at no time when the net savings
    are not. *)
Theorem savings_rate_is_guarded
        (db : list Transaction) (u : nat) (m y : Z) :
  (exists r, Reports.savings_rate db u m y = Py.Ok r)
  /\ (Reports.total_income db u m y <= 0 ->
      Reports.savings_rate db u m y = Py.Ok (Reports.RateInt 0))
  /\ (0 < Reports.total_income db u m y ->
      Reports.total_expenses db u m y = 0 ->
      Reports.savings_rate db u m y = Py.Ok (Reports.RateDecimal 100))
  /\ (0 < Reports.total_income db u m y ->
      0 <= Reports.net_savings db u m y ->
      exists q, Reports.savings_rate db u m y = Py.Ok (Reports.RateDecimal q)
                /\ (0 <= q)%Q).
Proof.
  unfold Reports.savings_rate.
  split; [|split; [|split]].
  - destruct (0 <? Reports.total_income db u m y) eqn:E.
    + apply Z.ltb_lt in E. unfold Py.decimal_div.
      rewrite of_cents_nonzero by lia. cbn [Py.bind]. eexists. reflexivity.
    + eexists. reflexivity.
  - intro H. replace (0 <? Reports.total_income db u m y) with false
      by (symmetry; apply Z.ltb_ge; lia). reflexivity.
  - intros H X. replace (0 <? Reports.total_income db u m y) with true
      by (symmetry; apply Z.ltb_lt; lia).
    unfold Py.decimal_div. rewrite of_cents_nonzero by lia. cbn [Py.bind].
    unfold Reports.net_savings. rewrite X, Z.sub_0_r.
    unfold Py.decimal_round. rewrite (round_sig_proper 10 28 _ 1%Q).
    + vm_compute. reflexivity.
    + apply Qmult_inv_r. unfold Py.of_cents, Qeq. cbn [Qnum Qden]. lia.
  - intros H N. replace (0 <? Reports.total_income db u m y) with true
      by (symmetry; apply Z.ltb_lt; lia).
    unfold Py.decimal_div. rewrite of_cents_nonzero by lia. cbn [Py.bind].
    eexists. split; [reflexivity|].
    apply round_sig_nonneg; [lia|].
    apply Qmult_le_0_compat; [|discriminate].
    apply round_sig_nonneg; [lia|].
    apply Qle_shift_div_l.
    + unfold Py.of_cents, Qlt. cbn [Qnum Qden]. lia.
    + unfold Py.of_cents, Qle, Qmult. cbn [Qnum Qden]. lia.
Qed.

Lemma savings_rate_is_guarded_witness :
  Reports.savings_rate [food 2000 false 10] 1 1 2026
  = Py.Ok (Reports.RateInt 0)
  /\ Reports.savings_rate [salary] 1 1 2026
     = Py.Ok (Reports.RateDecimal 100).
Proof.
  split.
  - apply (savings_rate_is_guarded [food 2000 false 10] 1 1 2026).
    vm_compute. discriminate.
  - apply (savings_rate_is_guarded [salary] 1 1 2026).
    + reflexivity.
    + reflexivity.
Defined.

(** 1000.00 earned and 250.00 spent: a rate of 75. *)
Example savings_rate_three_quarters :
  Reports.savings_rate [salary; food 25000 false 10] 1 1 2026
  = Py.Ok (Reports.RateDecimal 75).
Proof. vm_compute. reflexivity. Qed.

(** ** The transaction list *)





(** A maximum of 0.00 does not hide anything. *)
Example transaction_list_zero_maximum :
  Listing.transaction_list [salary; food 2000 false 10] 1
    (Some (Listing.mkFilterData None None None None None (Some 0)))
  = [salary; food 2000 false 10].
Proof. reflexivity. Qed.

Example transaction_list_by_type_and_month :
  Listing.transaction_list
    [salary; food 2000 false 10;
     mkTransaction 2 (Some 1%nat) expense 700 false "USD" None
                   (mkDate 2026 1 3) "Other user"]
    1 (Some (Listing.mkFilterData (Some expense) None (Some 1) None None None))
  = [food 2000 false 10].
Proof. reflexivity. Qed.

(** ** Views that take a primary key *)

Lemma get_object_or_404_some (table : Listing.Table) (pk u : nat)
      (t : Transaction) :
  Listing.get_object_or_404 table pk u = Some t ->
  In (pk, t) table /\ user t = u.
Proof.
  unfold Listing.get_object_or_404. intro H.
  destruct (find _ table) as [[k r]|] eqn:F; [|discriminate].
  injection H as <-. apply find_some in F as [I E]. cbn [fst snd] in E.
  apply andb_true_iff in E as [K U].
  apply Nat.eqb_eq in K. apply Nat.eqb_eq in U. now subst.
Qed.

Lemma get_object_or_404_none (table : Listing.Table) (pk u : nat) :
  Listing.get_object_or_404 table pk u = None ->
  forall t, In (pk, t) table -> user t <> u.
Proof.
  unfold Listing.get_object_or_404. intros H t I E.
  destruct (find _ table) as [r|] eqn:F; [discriminate|].
  pose proof (find_none _ _ F (pk, t) I) as N. cbn [fst snd] in N.
  rewrite Nat.eqb_refl in N. subst u. rewrite Nat.eqb_refl in N. discriminate.
Qed.

Lemma key_determines_row (table : Listing.Table) (pk : nat) (t t' : Transaction) :
  NoDup (map fst table) -> In (pk, t) table -> In (pk, t') table -> t = t'.
Proof.
  induction table as [|[k r] table IH]; intros N I I'; [contradiction|].
  cbn [map fst] in N. inversion N as [|k' l Nk Nl]; subst.
  destruct I as [E|I]; destruct I' as [E'|I'].
  - congruence.
  - exfalso. apply Nk. injection E as -> _.
    change pk with (fst (pk, t')). now apply in_map.
  - exfalso. apply Nk. injection E' as -> _.
    change pk with (fst (pk, t)). now apply in_map.
  - now apply IH.
Qed.

Lemma delete_removes_one (table : Listing.Table) (pk : nat) (t : Transaction) :
  NoDup (map fst table) -> In (pk, t) table ->
  List.length table
  = S (List.length (filter (fun r => negb (Nat.eqb (fst r) pk)) table)).
Proof.
  induction table as [|[k r] table IH]; intros N I; [contradiction|].
  cbn [map fst] in N. inversion N as [|k' l Nk Nl]; subst.
  cbn [filter fst]. destruct (Nat.eqb k pk) eqn:E.
  - apply Nat.eqb_eq in E. subst k. cbn [negb List.length]. f_equal.
    f_equal. symmetry. apply forallb_filter_id. apply forallb_forall.
    intros [k' r'] I'. cbn [fst]. apply negb_true_iff. apply Nat.eqb_neq.
    intros ->. apply Nk. change pk with (fst (pk, r')). now apply in_map.
  - cbn [negb List.length]. f_equal. apply IH; [exact Nl|].
    destruct I as [Eq|I]; [|exact I].
    injection Eq as -> _. rewrite Nat.eqb_refl in E. discriminate.
Qed.

(** With unique primary keys, [transaction_delete] answers 404 and deletes
    nothing unless the key names a row of the requesting user; when it
    does, that row alone goes: every other row, and so every row of every
    other user, stays as it was.  [transaction_detail] shows a row only to
    its owner. *)
Theorem delete_and_detail_respect_ownership
        (table : Listing.Table) (u pk : nat) :
  NoDup (map fst table) ->
  (forall t, Listing.transaction_detail table u pk = Some t ->
     In (pk, t) table /\ user t = u)
  /\ (Listing.transaction_delete table u pk = None <->
      forall t, In (pk, t) table -> user t <> u)
  /\ (forall table', Listing.transaction_delete table u pk = Some table' ->
        (forall r, In r table' <-> In r table /\ fst r <> pk)
        /\ (forall r, In r table -> user (snd r) <> u -> In r table')
        /\ List.length table = S (List.length table')).
Proof.
  intro N. split; [|split].
  - intros t H. now apply get_object_or_404_some.
  - unfold Listing.transaction_delete.
    destruct (Listing.get_object_or_404 table pk u) as [t|] eqn:G.
    + split; [discriminate|]. intro H. exfalso.
      apply get_object_or_404_some in G as [I U]. exact (H t I U).
    + split; [|reflexivity]. intros _. now apply get_object_or_404_none.
  - intros table' H. unfold Listing.transaction_delete in H.
    destruct (Listing.get_object_or_404 table pk u) as [t|] eqn:G;
      [|discriminate].
    injection H as <-. apply get_object_or_404_some in G as [I U].
    assert (M : forall r, In r (filter (fun r => negb (Nat.eqb (fst r) pk)) table)
                          <-> In r table /\ fst r <> pk).
    { intro r. rewrite filter_In, negb_true_iff, Nat.eqb_neq. tauto. }
    split; [exact M|split].
    + intros [k r] Ir Ur. apply M. split; [exact Ir|]. cbn [fst snd] in *.
      intros ->. apply Ur. rewrite <- U.
      now rewrite (key_determines_row table pk t r N I Ir).
    + exact (delete_removes_one table pk t N I).
Qed.

Definition two_users_table : Listing.Table :=
  [(1%nat, food 2000 false 10);
   (2%nat, mkTransaction 2 (Some 3%nat) expense 700 false "USD" None
                         (mkDate 2026 1 3) "Other user")].

Lemma delete_and_detail_respect_ownership_witness :
  Listing.transaction_delete two_users_table 1 2 = None
  /\ Listing.transaction_delete two_users_table 2 1 = None.
Proof.
  split.
  - apply (delete_and_detail_respect_ownership two_users_table 1 2).
    + repeat constructor; simpl; intuition discriminate.
    + intros t [E|[E|[]]]; try discriminate E; injection E as <-;
        simpl; discriminate.
  - apply (delete_and_detail_respect_ownership two_users_table 2 1).
    + repeat constructor; simpl; intuition discriminate.
    + intros t [E|[E|[]]]; try discriminate E; injection E as <-;
        simpl; discriminate.
Defined.

Example delete_own_row :
  Listing.transaction_delete two_users_table 1 1
  = Some [(2%nat, mkTransaction 2 (Some 3%nat) expense 700 false "USD" None
                                (mkDate 2026 1 3) "Other user")].
Proof. reflexivity. Qed.

(** ** Profiles: get-or-create and the signals *)

Lemma find_snoc {A} (f : A -> bool) (l : list A) (x : A) :
  find f (l ++ [x])
  = match find f l with
    | Some y => Some y
    | None => if f x then Some x else None
    end.
Proof.
  induction l as [|a l IH]; [reflexivity|].
  cbn [app find]. destruct (f a); [reflexivity|exact IH].
Qed.

Lemma profile_after_create (profiles : list Accounts.UserProfile) (u v : nat) :
  Accounts.profile (profiles ++ [AccountsViews.default_profile u]) v
  = match Accounts.profile profiles v with
    | Py.Ok p => Py.Ok p
    | Py.Raise e =>
        if Nat.eqb u v then Py.Ok (AccountsViews.default_profile u)
        else Py.Raise e
    end.
Proof.
  unfold Accounts.profile. rewrite find_snoc.
  destruct (find _ profiles); [reflexivity|].
  cbn [AccountsViews.default_profile Accounts.user].
  now destruct (Nat.eqb u v).
Qed.

Lemma ensure_profile_makes_lookup_succeed_aux
      (profiles : list Accounts.UserProfile) (u : nat) :
  Accounts.profile (fst (AccountsViews._ensure_profile profiles u)) u
  = Py.Ok (snd (AccountsViews._ensure_profile profiles u))
  /\ (forall q, Accounts.profile profiles u = Py.Ok q ->
        fst (AccountsViews._ensure_profile profiles u) = profiles)
  /\ (forall q, Accounts.profile profiles u = Py.Ok q ->
        snd (AccountsViews._ensure_profile profiles u) = q)
  /\ (forall v, v <> u ->
        Accounts.profile (fst (AccountsViews._ensure_profile profiles u)) v
        = Accounts.profile profiles v).
Proof.
  unfold AccountsViews._ensure_profile. unfold Accounts.profile at 2 3.
  destruct (find (fun p => Nat.eqb (Accounts.user p) u) profiles)
    as [q|] eqn:F; cbn [fst snd].
  - repeat split; try congruence.
    unfold Accounts.profile. now rewrite F.
  - repeat split; try discriminate.
    + rewrite profile_after_create. unfold Accounts.profile. rewrite F.
      now rewrite Nat.eqb_refl.
    + intros v N. rewrite profile_after_create.
      destruct (Accounts.profile profiles v); [reflexivity|].
      replace (Nat.eqb u v) with false; [reflexivity|].
      symmetry. apply Nat.eqb_neq. congruence.
Qed.

(** [_ensure_profile] returns a profile that [user.profile] finds from then
    on.  An existing profile is returned as it is and the table is not
    touched; a missing one is created with the defaults USD, e-mail alerts
    on, threshold 80.  No other user's profile changes, a second call
    changes nothing, and the currency the dashboard shows is the same
    before and after for every user. *)
Theorem ensure_profile_makes_lookup_succeed
        (profiles : list Accounts.UserProfile) (u : nat) :
  let profiles' := fst (AccountsViews._ensure_profile profiles u) in
  let p := snd (AccountsViews._ensure_profile profiles u) in
  Accounts.profile profiles' u = Py.Ok p
  /\ (forall q, Accounts.profile profiles u = Py.Ok q ->
        profiles' = profiles /\ p = q)
  /\ (forall e, Accounts.profile profiles u = Py.Raise e ->
        profiles' = profiles ++ [Accounts.mkUserProfile u "USD" true 80]
        /\ p = Accounts.mkUserProfile u "USD" true 80)
  /\ (forall v, v <> u ->
        Accounts.profile profiles' v = Accounts.profile profiles v)
  /\ AccountsViews._ensure_profile profiles' u = (profiles', p)
  /\ (forall v, Dashboard._get_currency profiles' v
                = Dashboard._get_currency profiles v).
Proof.
  cbv zeta. unfold AccountsViews._ensure_profile, Dashboard._get_currency.
  unfold Accounts.profile at 2 3.
  destruct (find (fun p => Nat.eqb (Accounts.user p) u) profiles)
    as [q|] eqn:F; cbn [fst snd].
  - repeat split; try reflexivity; try congruence.
    + unfold Accounts.profile. now rewrite F.
    + now rewrite F.
  - repeat split; try reflexivity; try discriminate.
    + rewrite profile_after_create. unfold Accounts.profile. rewrite F.
      now rewrite Nat.eqb_refl.
    + intros v N. rewrite profile_after_create.
      destruct (Accounts.profile profiles v); [reflexivity|].
      replace (Nat.eqb u v) with false; [reflexivity|].
      symmetry. apply Nat.eqb_neq. congruence.
    + rewrite find_snoc, F.
      cbn [AccountsViews.default_profile Accounts.user].
      now rewrite Nat.eqb_refl.
    + intro v. rewrite profile_after_create.
      destruct (Accounts.profile profiles v); [reflexivity|].
      now destruct (Nat.eqb u v).
Qed.

Lemma ensure_profile_makes_lookup_succeed_witness :
  fst (AccountsViews._ensure_profile [Accounts.mkUserProfile 1 "EUR" false 50] 1)
  = [Accounts.mkUserProfile 1 "EUR" false 50]
  /\ snd (AccountsViews._ensure_profile [Accounts.mkUserProfile 1 "EUR" false 50] 1)
     = Accounts.mkUserProfile 1 "EUR" false 50.
Proof.
  destruct (ensure_profile_makes_lookup_succeed
              [Accounts.mkUserProfile 1 "EUR" false 50] 1) as [_ [K _]].
  apply K. reflexivity.
Defined.

(** After the [post_save] receivers of [User] have run, on creation or on
    any later save, the user has a profile; a profile that existed is kept
    and no other user's profile changes. *)
Theorem post_save_leaves_a_profile
        (profiles : list Accounts.UserProfile) (u : nat) (created : bool) :
  let profiles' := AccountsViews.post_save_user profiles u created in
  (exists p, Accounts.profile profiles' u = Py.Ok p)
  /\ (forall q, Accounts.profile profiles u = Py.Ok q ->
        profiles' = profiles)
  /\ (forall v, v <> u ->
        Accounts.profile profiles' v = Accounts.profile profiles v).
Proof.
  cbv zeta.
  unfold AccountsViews.post_save_user, AccountsViews.create_user_profile,
    AccountsViews.save_user_profile.
  pose proof (ensure_profile_makes_lookup_succeed_aux profiles u) as E.
  destruct created.
  - destruct E as (L & K & _ & O). rewrite L.
    split; [eexists; exact L|split].
    + intros q Q. now apply K in Q.
    + exact O.
  - destruct (Accounts.profile profiles u) as [q|e] eqn:P.
    + split; [eexists; exact P|split; [reflexivity|reflexivity]].
    + split; [|split].
      * rewrite profile_after_create, P, Nat.eqb_refl. eexists. reflexivity.
      * discriminate.
      * intros v N. rewrite profile_after_create.
        destruct (Accounts.profile profiles v); [reflexivity|].
        replace (Nat.eqb u v) with false; [reflexivity|].
        symmetry. apply Nat.eqb_neq. congruence.
Qed.

Lemma post_save_leaves_a_profile_witness :
  AccountsViews.post_save_user [Accounts.mkUserProfile 1 "EUR" false 50] 1 false
  = [Accounts.mkUserProfile 1 "EUR" false 50].
Proof.
  destruct (post_save_leaves_a_profile
              [Accounts.mkUserProfile 1 "EUR" false 50] 1 false) as [_ [K _]].
  apply (K (Accounts.mkUserProfile 1 "EUR" false 50)). reflexivity.
Defined.

(** ** What the views do to the world *)

(** [convert_currency] touches nothing but the request log, to which it
    adds one request for the given pair and amount exactly when the
    currencies differ.  What it returns is either the amount it was given
    or the rounding of the "conversion_result" of a response whose
    "result" is "success". *)
Theorem convert_currency_asks_at_most_once
        (rate_source : RateRequest -> Py.result Response) (key : string)
        (amount : Py.num) (c1 c2 : string) (w : World) :
  let request := mkRateRequest key c1 c2 amount in
  let r := fst (Views.convert_currency rate_source key amount c1 c2 w) in
  let w' := snd (Views.convert_currency rate_source key amount c1 c2 w) in
  w' = mkWorld (transactions w) (budgets w) (profiles w) (messages w)
               (rate_requests w
                ++ (if String.eqb c1 c2 then [] else [request]))
               (mail_attempts w)
  /\ (r = Py.Ok amount
      \/ exists resp kv v n,
           rate_source request = Py.Ok resp
           /\ body resp = Py.Ok (JDict kv)
           /\ lookup "result" kv = Some (JStr "success")
           /\ lookup "conversion_result" kv = Some v
           /\ round_json v = Py.Ok n
           /\ r = Py.Ok n).
Proof.
  cbv zeta. unfold Views.convert_currency.
  destruct (String.eqb c1 c2).
  - cbn [ret fst snd]. rewrite app_nil_r. split; [now destruct w|now left].
  - unfold try_except, bind, Views.requests_get, lift, ret. cbv beta zeta.
    destruct (rate_source (mkRateRequest key c1 c2 amount)) as [resp|e] eqn:R;
      [|cbn [fst snd]; split; [reflexivity|now left]].
    destruct (body resp) as [data|e] eqn:B;
      [|cbn [fst snd]; split; [reflexivity|now left]].
    destruct data as [ |b|z|q|s|l|kv];
      try (cbn [dict_get fst snd]; split; [reflexivity|now left]).
    cbn [dict_get].
    destruct (lookup "result" kv) as [res|] eqn:L;
      [|cbn [is_success fst snd]; split; [reflexivity|now left]].
    destruct (is_success res) eqn:S;
      [|cbn [fst snd]; split; [reflexivity|now left]].
    apply is_success_spec in S. subst res. cbn [subscript].
    destruct (lookup "conversion_result" kv) as [v|] eqn:C;
      [|cbn [fst snd]; split; [reflexivity|now left]].
    destruct (round_json v) as [n|e] eqn:N;
      cbn [fst snd]; (split; [reflexivity|]); [right|now left].
    exists resp, kv, v, n. repeat split; assumption || reflexivity.
Qed.


(** The usage of a budget as a number. *)
Definition usage_now (db : list Transaction) (b : Budgets.Budget) : Py.num :=
  match Budgets.usage_percentage db b with
  | Py.Ok pct => pct
  | Py.Raise _ => Py.PyInt 0
  end.

(** The budgets among [bs] whose usage has reached the threshold. *)
Definition crossing (db : list Transaction) (threshold : Z)
           (bs : list Budgets.Budget) : list Budgets.Budget :=
  filter (fun b => Py.ge (usage_now db b) (Py.PyInt threshold)) bs.


Definition mail_for (db : list Transaction) (u : nat) (b : Budgets.Budget)
  : Email :=
  mkEmail u (Budgets.category b)
    (if Py.ge (usage_now db b) (Py.PyInt 100)
     then Exceeded (Budgets.amount b) (Budgets.spent_amount db b)
                   (Z.abs (Budgets.remaining_amount db b))
     else Approaching (usage_now db b) (Budgets.amount b)
                      (Budgets.spent_amount db b)
                      (Budgets.remaining_amount db b)).


Lemma usage_now_ok (db : list Transaction) (b : Budgets.Budget) :
  Budgets.usage_percentage db b = Py.Ok (usage_now db b).
Proof.
  unfold usage_now. destruct (usage_percentage_returns db b) as [pct E].
  now rewrite E.
Qed.

















(** ** Deleting a category *)

Lemma set_null_keeps_amounts (c : nat) (t : Transaction) :
  user (Categories.set_null c t) = user t
  /\ type (Categories.set_null c t) = type t
  /\ amount (Categories.set_null c t) = amount t
  /\ is_refund (Categories.set_null c t) = is_refund t
  /\ date (Categories.set_null c t) = date t
  /\ category (Categories.set_null c t)
     = if Categories.references c t then None else category t.
Proof.
  unfold Categories.set_null, Categories.references.
  destruct (category t) as [c'|] eqn:E; [|now rewrite E].
  destruct (Nat.eqb c' c); cbn; now rewrite ?E.
Qed.

Lemma net_worth_after_set_null (c u : nat) (db : list Transaction) :
  Dashboard.net_worth (map (Categories.set_null c) db) u
  = Dashboard.net_worth db u.
Proof.
  induction db as [|t db IH]; [reflexivity|].
  cbn [map]. rewrite !net_worth_step, IH.
  destruct (set_null_keeps_amounts c t) as (U & T & A & R & _).
  unfold signed_amount. now rewrite U, T, A, R.
Qed.

Lemma spent_after_set_null (c : nat) (db : list Transaction)
      (b : Budgets.Budget) :
  Budgets.category b <> c ->
  Budgets.spent_amount (map (Categories.set_null c) db) b
  = Budgets.spent_amount db b.
Proof.
  intro N. rewrite !spent_amount_unfold. f_equal. f_equal.
  induction db as [|t db IH]; [reflexivity|].
  cbn [map filter].
  destruct (set_null_keeps_amounts c t) as (U & T & A & R & D & C).
  assert (E : Budgets.in_budget b (Categories.set_null c t)
              = Budgets.in_budget b t).
  { unfold Budgets.in_budget. rewrite U, T, D, C.
    unfold Categories.references.
    destruct (category t) as [c'|]; [|reflexivity].
    destruct (Nat.eqb c' c) eqn:Q; [|reflexivity].
    apply Nat.eqb_eq in Q. subst c'.
    replace (Nat.eqb c (Budgets.category b)) with false; [reflexivity|].
    symmetry. apply Nat.eqb_neq. congruence. }
  rewrite E. destruct (Budgets.in_budget b t); [|exact IH].
  cbn [map]. rewrite IH. f_equal.
  unfold effective_amount. now rewrite A, R.
Qed.

Definition uncategorised (t : Transaction) : bool :=
  match category t with
  | Some _ => false
  | None => true
  end.

Lemma uncategorised_after_set_null (c : nat) (db : list Transaction) :
  List.length (filter uncategorised (map (Categories.set_null c) db))
  = (List.length (filter uncategorised db)
     + Categories.transaction_count c db)%nat.
Proof.
  unfold Categories.transaction_count.
  induction db as [|t db IH]; [reflexivity|].
  cbn [map filter].
  set (A := filter uncategorised (map (Categories.set_null c) db)) in *.
  set (B := filter uncategorised db) in *.
  set (R := filter (Categories.references c) db) in *.
  destruct (set_null_keeps_amounts c t) as (_ & _ & _ & _ & _ & C).
  unfold uncategorised. rewrite C. unfold Categories.references.
  destruct (category t) as [c'|]; [destruct (Nat.eqb c' c)|];
    cbn [List.length]; lia.
Qed.

(** Deleting a category deletes no transaction.  The table keeps its
    length, every user's net worth is what it was, no row refers to the
    category any more, and the rows without a category are more by exactly
    the count the confirmation page announces.  The budgets on the
    category go with it; every other budget stays and shows the same
    spend. *)
Theorem category_delete_keeps_transactions (c : nat) (w : World) :
  let w' := Categories.delete c w in
  List.length (transactions w') = List.length (transactions w)
  /\ (forall u, Dashboard.net_worth (transactions w') u
                = Dashboard.net_worth (transactions w) u)
  /\ Categories.transaction_count c (transactions w') = 0%nat
  /\ List.length (filter uncategorised (transactions w'))
     = (List.length (filter uncategorised (transactions w))
        + Categories.transaction_count c (transactions w))%nat
  /\ (forall b, In b (budgets w')
                <-> In b (budgets w) /\ Budgets.category b <> c)
  /\ (forall b, In b (budgets w') ->
        Budgets.spent_amount (transactions w') b
        = Budgets.spent_amount (transactions w) b).
Proof.
  cbv zeta. unfold Categories.delete.
  cbn [transactions budgets].
  assert (B : forall b,
             In b (filter (fun b => negb (Nat.eqb (Budgets.category b) c))
                          (budgets w))
             <-> In b (budgets w) /\ Budgets.category b <> c).
  { intro b. rewrite filter_In, negb_true_iff, Nat.eqb_neq. tauto. }
  split; [apply length_map|].
  split; [intro u; apply net_worth_after_set_null|].
  split; [|split; [apply uncategorised_after_set_null|split; [exact B|]]].
  - unfold Categories.transaction_count.
    induction (transactions w) as [|t db IH]; [reflexivity|].
    cbn [map filter].
    set (R := filter (Categories.references c) _) in *.
    destruct (set_null_keeps_amounts c t) as (_ & _ & _ & _ & _ & C).
    unfold Categories.references. rewrite C. unfold Categories.references.
    destruct (category t) as [c'|]; [|exact IH].
    destruct (Nat.eqb c' c) eqn:Q; [exact IH|]. now rewrite Q.
  - intros b I. apply B in I as [_ N]. now apply spent_after_set_null.
Qed.

Definition two_budgets_world : World :=
  mkWorld [food 5000 false 15; salary]
          [food_budget;
           Budgets.mkBudget 1 2 30000 "USD" (mkDate 2026 1 1)
                            (mkDate 2026 1 31) "Other"]
          [] [] [] [].

Lemma category_delete_keeps_transactions_witness :
  Budgets.spent_amount (transactions (Categories.delete 2 two_budgets_world))
                       food_budget
  = Budgets.spent_amount (transactions two_budgets_world) food_budget.
Proof.
  destruct (category_delete_keeps_transactions 2 two_budgets_world)
    as (_ & _ & _ & _ & _ & S).
  apply S. left. reflexivity.
Defined.

(** The test of the suite: a 50.00 lunch outlives its category. *)
Example test_delete_category_keeps_transactions :
  transactions (Categories.delete 1
    (mkWorld [food 5000 false 15] [food_budget] [] [] [] []))
  = [mkTransaction 1 None expense 5000 false "USD" None (mkDate 2026 1 15)
                   "Food"]
  /\ budgets (Categories.delete 1
       (mkWorld [food 5000 false 15] [food_budget] [] [] [] [])) = [].
Proof. split; reflexivity. Qed.

(** ** More month arithmetic *)

Lemma months_ago_spec (today : Date) (n : Z) :
  1 <= month today <= 12 -> 0 <= n ->
  exists m y, Dashboard._months_ago today n = (m, y)
              /\ 1 <= m <= 12
              /\ 12 * y + m = 12 * year today + month today - n.
Proof.
  intros Hm Hn. unfold Dashboard._months_ago.
  pose proof (rollover_spec (month today - n) (year today)) as S.
  destruct (Dashboard.rollover (month today - n) (year today)) as [m y].
  exists m, y. split; [reflexivity|]. lia.
Qed.

(** Walking back [a] months and then [b] months from the month reached is
    walking back [a + b] months; the result is the month with floor
    quotient and remainder of the month count.  A count below the current
    month number, a negative one included, never enters the loop: the
    month comes back as [month - n] unreduced, above 12 when [n] is
    negative enough. *)
Theorem months_ago_composes (today : Date) (a b : Z) :
  1 <= month today <= 12 -> 0 <= a -> 0 <= b ->
  (forall m y, Dashboard._months_ago today a = (m, y) ->
     Dashboard._months_ago (mkDate y m (day today)) b
     = Dashboard._months_ago today (a + b))
  /\ Dashboard._months_ago today a
     = ((month today - 1 - a) mod 12 + 1,
        year today + (month today - 1 - a) / 12)
  /\ (forall n, n < month today ->
        Dashboard._months_ago today n = (month today - n, year today)).
Proof.
  intros Hm Ha Hb. split; [|split].
  - intros m y E.
    destruct (months_ago_spec today a Hm Ha) as (m1 & y1 & E1 & R1 & I1).
    rewrite E in E1. injection E1 as <- <-.
    destruct (months_ago_spec (mkDate y m (day today)) b) as (m2 & y2 & E2 & R2 & I2);
      [exact R1|exact Hb|].
    destruct (months_ago_spec today (a + b) Hm ltac:(lia))
      as (m3 & y3 & E3 & R3 & I3).
    rewrite E2, E3. cbn [month year] in I2. f_equal; lia.
  - destruct (months_ago_spec today a Hm Ha) as (m & y & E & R & I).
    rewrite E.
    assert (D : month today - 1 - a = 12 * (y - year today) + (m - 1)) by lia.
    rewrite <- (Z.mod_unique_pos (month today - 1 - a) 12 (y - year today) (m - 1))
      by lia.
    rewrite <- (Z.div_unique_pos (month today - 1 - a) 12 (y - year today) (m - 1))
      by lia.
    f_equal; lia.
  - intros n H. unfold Dashboard._months_ago. simp rollover.
    destruct (Z_le_gt_dec (month today - n) 0) as [L|G]; [lia|].
    reflexivity.
Qed.

Lemma months_ago_composes_witness :
  Dashboard._months_ago (mkDate 2025 12 20) 3
  = Dashboard._months_ago january_20 4
  /\ Dashboard._months_ago january_20 (-2) = (3, 2026).
Proof.
  destruct (months_ago_composes january_20 1 3) as [C [_ F]];
    [simpl; lia|lia|lia|].
  split.
  - apply (C 12 2025). reflexivity.
  - apply F. simpl. lia.
Defined.

(** ** The yearly report *)

(** What the row of month [m] of year [y] must show. *)
Definition row_of (db : list Transaction) (u : nat) (y m : Z)
           (r : YearlyReport.MonthRow) : Prop :=
  YearlyReport.row_label r = mkDate y m 1
  /\ YearlyReport.row_savings r
     = Py.float (Py.of_cents
                   (DashboardPage.monthly_savings db u (mkDate y m 1)))
  /\ YearlyReport.row_expense r
     = Py.float (Py.of_cents
                   (DashboardPage.monthly_expenses db u (mkDate y m 1)))
  /\ (0 <= YearlyReport.row_expense r)%Q.

Lemma month_row_ok (db : list Transaction) (u : nat) (y m : Z) :
  1 <= y <= 9999 -> 1 <= m <= 12 ->
  exists r, YearlyReport.month_row db u y m = Some r /\ row_of db u y m r.
Proof.
  intros Hy Hm. unfold YearlyReport.month_row, DashboardPage.date_first.
  replace ((1 <=? m) && (m <=? 12) && (1 <=? y) && (y <=? 9999)) with true
    by (symmetry; rewrite !andb_true_iff, !Z.leb_le; lia).
  eexists. split; [reflexivity|]. unfold row_of.
  cbn [YearlyReport.row_label YearlyReport.row_savings
       YearlyReport.row_expense].
  split; [reflexivity|split; [reflexivity|split; [reflexivity|]]].
  apply round_sig_nonneg; [lia|].
  unfold Py.of_cents, Qle. cbn [Qnum Qden]. lia.
Qed.

(** The yearly report does not clamp the year it is asked for: it fails on
    the dates it builds exactly when the year lies outside 1..9999.
    Otherwise it has twelve rows, January to December of that year, and
    the savings and the expense of each row are the floats of the
    dashboard's figures for that month, expenses floored at zero. *)
Theorem yearly_report_rows (db : list Transaction) (u : nat) (y : Z) :
  (forall today, YearlyReport.selected_year (Reports.Text (Some y)) today = y)
  /\ (YearlyReport.monthly_data db u y = None <-> ~ 1 <= y <= 9999)
  /\ (forall rs, YearlyReport.monthly_data db u y = Some rs ->
        Forall2 (row_of db u y) [1; 2; 3; 4; 5; 6; 7; 8; 9; 10; 11; 12] rs).
Proof.
  split; [reflexivity|].
  unfold YearlyReport.monthly_data.
  destruct (Z_le_dec 1 y) as [L|L]; [destruct (Z_le_dec y 9999) as [H|H]|].
  - assert (Hy : 1 <= y <= 9999) by lia.
    destruct (month_row_ok db u y 1 Hy ltac:(lia)) as [r1 [E1 R1]].
    destruct (month_row_ok db u y 2 Hy ltac:(lia)) as [r2 [E2 R2]].
    destruct (month_row_ok db u y 3 Hy ltac:(lia)) as [r3 [E3 R3]].
    destruct (month_row_ok db u y 4 Hy ltac:(lia)) as [r4 [E4 R4]].
    destruct (month_row_ok db u y 5 Hy ltac:(lia)) as [r5 [E5 R5]].
    destruct (month_row_ok db u y 6 Hy ltac:(lia)) as [r6 [E6 R6]].
    destruct (month_row_ok db u y 7 Hy ltac:(lia)) as [r7 [E7 R7]].
    destruct (month_row_ok db u y 8 Hy ltac:(lia)) as [r8 [E8 R8]].
    destruct (month_row_ok db u y 9 Hy ltac:(lia)) as [r9 [E9 R9]].
    destruct (month_row_ok db u y 10 Hy ltac:(lia)) as [r10 [E10 R10]].
    destruct (month_row_ok db u y 11 Hy ltac:(lia)) as [r11 [E11 R11]].
    destruct (month_row_ok db u y 12 Hy ltac:(lia)) as [r12 [E12 R12]].
    cbn [YearlyReport.rows].
    rewrite E1, E2, E3, E4, E5, E6, E7, E8, E9, E10, E11, E12.
    split; [split; [discriminate|intro N; exfalso; exact (N Hy)]|].
    intros rs [= <-].
    repeat (apply Forall2_cons; [assumption|]). apply Forall2_nil.
  - assert (N : YearlyReport.month_row db u y 1 = None).
    { unfold YearlyReport.month_row, DashboardPage.date_first.
      replace (y <=? 9999) with false by (symmetry; apply Z.leb_gt; lia).
      now rewrite andb_false_r. }
    cbn [YearlyReport.rows]. rewrite N.
    split; [split; [intros _; lia|reflexivity]|discriminate].
  - assert (N : YearlyReport.month_row db u y 1 = None).
    { unfold YearlyReport.month_row, DashboardPage.date_first.
      replace (1 <=? y) with false by (symmetry; apply Z.leb_gt; lia).
      now rewrite andb_false_r. }
    cbn [YearlyReport.rows]. rewrite N.
    split; [split; [intros _; lia|reflexivity]|discriminate].
Qed.

Lemma yearly_report_rows_witness :
  YearlyReport.monthly_data january_refund_surplus 1
    (YearlyReport.selected_year (Reports.Text (Some 0)) january_20)
  = None.
Proof.
  destruct (yearly_report_rows january_refund_surplus 1 0) as [Y [N _]].
  rewrite (Y january_20). apply N. lia.
Defined.

(** ** Alerts and status *)

Lemma status_now (db : list Transaction) (b : Budgets.Budget) :
  Budgets.status db b
  = Py.Ok (if Py.ge (usage_now db b) (Py.PyInt 100) then "exceeded"
           else if Py.ge (usage_now db b) (Py.PyInt 80) then "warning"
           else "good")%string.
Proof.
  unfold Budgets.status. rewrite usage_now_ok. cbn [Py.bind].
  destruct (Py.ge (usage_now db b) (Py.PyInt 100)); [reflexivity|].
  now destruct (Py.ge (usage_now db b) (Py.PyInt 80)).
Qed.

(** The alert and the status of a budget read the same number against the
    same marks.  With the default threshold of 80, a budget is alerted
    exactly when its status is not "good"; with a threshold of 100,
    exactly when it is "exceeded"; and the mail is worded "exceeded"
    exactly when the status is. *)
Theorem alerts_follow_status (db : list Transaction) (u : nat)
        (bs : list Budgets.Budget) (b : Budgets.Budget) :
  (In b (crossing db 80 bs)
   <-> In b bs /\ Budgets.status db b <> Py.Ok "good"%string)
  /\ (In b (crossing db 100 bs)
      <-> In b bs /\ Budgets.status db b = Py.Ok "exceeded"%string)
  /\ ((exists budget spent over_by,
         email_body (mail_for db u b) = Exceeded budget spent over_by)
      <-> Budgets.status db b = Py.Ok "exceeded"%string).
Proof.
  unfold crossing, mail_for. rewrite !filter_In, (status_now db b).
  cbn [email_body].
  assert (M : Py.ge (usage_now db b) (Py.PyInt 100) = true ->
              Py.ge (usage_now db b) (Py.PyInt 80) = true).
  { unfold Py.ge. cbn [Py.value]. intro H.
    apply Qle_bool_iff in H. apply Qle_bool_iff.
    apply Qle_trans with (y := inject_Z 100); [discriminate|exact H]. }
  destruct (Py.ge (usage_now db b) (Py.PyInt 100)) eqn:G100;
    [rewrite (M eq_refl)
    |destruct (Py.ge (usage_now db b) (Py.PyInt 80)) eqn:G80].
  - split; [|split].
    + split; (intros [I _]; split; [exact I|]); [discriminate|reflexivity].
    + split; (intros [I _]; split; [exact I|reflexivity]).
    + split; [reflexivity|]. intros _. do 3 eexists. reflexivity.
  - split; [|split].
    + split; (intros [I _]; split; [exact I|]); [discriminate|reflexivity].
    + split; intros [_ H]; discriminate H.
    + split; [|discriminate]. intros (x & y & z & H). discriminate H.
  - split; [|split].
    + split; intros [_ H]; [discriminate H|now exfalso].
    + split; intros [_ H]; discriminate H.
    + split; [|discriminate]. intros (x & y & z & H). discriminate H.
Qed.
